(** * Jump Cutter: the stretch-scheduling controller

    A shallow embedding of [src/content/Controller.js] and of the pure timing
    helpers it imports ([helpers]: [getRealtimeMargin], [getNewLookaheadDelay],
    [getStretcherSoundedDelay], [getStretcherDelayForInputMoment],
    [transformSpeed], ...), with the properties the specification states
    about them.  After these come the storage migrations and the wrapper of
    the storage change listeners, with properties read off their code.

    Numbers.  A JavaScript [number] is modelled as an exact rational or one
    of the three IEEE special values.  Finite arithmetic is exact (rounding
    and overflow are not modelled); the special values follow IEEE 754, so
    that [0 / 0] is [NaN] and every comparison with [NaN] is false.  The
    sign of zero is not tracked: a zero divisor counts as [+0], which is
    what a literal [0] and a difference [x - x] produce.  An equation
    between computed values is therefore an identity between the formulas
    the code evaluates, which the rounded values satisfy up to rounding;
    where the code compares two computed values, nearly equal values may
    fall on either side of its test, and the properties of the zero-length
    schedule and of the ramp at the end of a silence are stated for both
    outcomes of the test. *)

From stdpp Require Import base numbers gmap strings list.
From Stdlib Require Import QArith Qcanon Field Lqa.

Open Scope Qc_scope.

(** ** Numbers *)

Module Num.

Inductive number : Type :=
  | Fin (q : Qc)
  | PInf
  | NInf
  | NaN.

(** The rational [n / d] as a literal. *)
Definition qc (n : Z) (d : positive) : Qc := Q2Qc (n # d).

(** Sign of a number as a comparison with zero ([Eq] for zero). *)
Definition sign (x : number) : comparison :=
  match x with
  | Fin a => a ?= 0
  | PInf => Gt
  | NInf => Lt
  | NaN => Eq
  end.

Definition sign_mul (s t : comparison) : comparison :=
  match s, t with
  | Eq, _ | _, Eq => Eq
  | Lt, Lt | Gt, Gt => Gt
  | Lt, Gt | Gt, Lt => Lt
  end.

(** The infinity of a given sign; a zero sign gives [NaN]
    (as in [0 * Infinity] and [0 / 0]). *)
Definition inf_of_sign (s : comparison) : number :=
  match s with
  | Lt => NInf
  | Eq => NaN
  | Gt => PInf
  end.

Definition is_zero (a : Qc) : bool :=
  match a ?= 0 with Eq => true | _ => false end.

Definition add (x y : number) : number :=
  match x, y with
  | NaN, _ | _, NaN => NaN
  | PInf, NInf | NInf, PInf => NaN
  | PInf, _ | _, PInf => PInf
  | NInf, _ | _, NInf => NInf
  | Fin a, Fin b => Fin (a + b)
  end.

Definition neg (x : number) : number :=
  match x with
  | Fin a => Fin (- a)
  | PInf => NInf
  | NInf => PInf
  | NaN => NaN
  end.

Definition sub (x y : number) : number := add x (neg y).

Definition mul (x y : number) : number :=
  match x, y with
  | NaN, _ | _, NaN => NaN
  | Fin a, Fin b => Fin (a * b)
  | _, _ => inf_of_sign (sign_mul (sign x) (sign y))
  end.

Definition div (x y : number) : number :=
  match x, y with
  | NaN, _ | _, NaN => NaN
  | Fin a, Fin b => if is_zero b then inf_of_sign (a ?= 0) else Fin (a / b)
  | Fin _, _ => Fin 0
  | _, Fin b => inf_of_sign (sign_mul (sign x) (if is_zero b then Gt else b ?= 0))
  | _, _ => NaN
  end.

(** Ordering; [None] when one side is [NaN]. *)
Definition cmp (x y : number) : option comparison :=
  match x, y with
  | NaN, _ | _, NaN => None
  | Fin a, Fin b => Some (a ?= b)
  | PInf, PInf | NInf, NInf => Some Eq
  | PInf, _ | _, NInf => Some Gt
  | NInf, _ | _, PInf => Some Lt
  end.

(** [x < y] *)
Definition lt (x y : number) : bool :=
  match cmp x y with Some Lt => true | _ => false end.

(** [x >= y] *)
Definition ge (x y : number) : bool :=
  match cmp x y with Some Gt | Some Eq => true | _ => false end.

(** [x === y] on numbers *)
Definition strict_eq (x y : number) : bool :=
  match cmp x y with Some Eq => true | _ => false end.

(** [Math.max(x, y)] and [Math.min(x, y)] *)
Definition max (x y : number) : number :=
  match cmp x y with
  | None => NaN
  | Some Lt => y
  | Some _ => x
  end.

Definition min (x y : number) : number :=
  match cmp x y with
  | None => NaN
  | Some Gt => y
  | Some _ => x
  end.

End Num.

Import Num.

Declare Scope js_scope.
Delimit Scope js_scope with js.
Bind Scope js_scope with number.
Infix "+" := add : js_scope.
Infix "-" := sub : js_scope.
Infix "*" := mul : js_scope.
Infix "/" := div : js_scope.
Notation "x <? y" := (lt x y) : js_scope.
Notation "x >=? y" := (ge x y) (at level 70) : js_scope.
Notation "x === y" := (strict_eq x y) (at level 70) : js_scope.

(** ** The helpers *)

Definition Time := number.

(** [StretchInfo]: the record the controller keeps about the last delay
    reset it scheduled. *)
Record StretchInfo : Type := mkStretchInfo {
  newSpeedStartInputTime : Time;
  startTime : Time;
  startValue : Time;
  endTime : Time;
  endValue : Time;
}.

Section Helpers.
Local Open Scope js_scope.

Definition getRealtimeMargin (margin : Time) (speed : number) : Time :=
  margin / speed.

Definition getNewLookaheadDelay
    (intrinsicTimeMargin : Time) (soundedSpeed silenceSpeed : number) : Time :=
  intrinsicTimeMargin / Num.max soundedSpeed silenceSpeed.

(** Imported by the controller as [getTotalDelay]. *)
Definition getDelayFromInputToStretcherOutput
    (lookaheadNodeDelay stretcherNodeDelay : Time) : Time :=
  lookaheadNodeDelay + stretcherNodeDelay.

Definition getNewSnippetDuration
    (originalRealtimeDuration : Time) (originalSpeed newSpeed : number) : Time :=
  let videoSpeedSnippetDuration := originalRealtimeDuration * originalSpeed in
  videoSpeedSnippetDuration / newSpeed.

Definition getStretcherDelayChange
    (snippetOriginalRealtimeDuration : Time) (originalSpeed newSpeed : number) : Time :=
  let snippetNewDuration :=
    getNewSnippetDuration snippetOriginalRealtimeDuration originalSpeed newSpeed in
  let delayChange := snippetNewDuration - snippetOriginalRealtimeDuration in
  delayChange.

Definition getStretcherSoundedDelay
    (intrinsicTimeMarginBefore : Time) (soundedSpeed silenceSpeed : number) : Time :=
  let realTimeMarginBefore := intrinsicTimeMarginBefore / silenceSpeed in
  let delayChange := getStretcherDelayChange realTimeMarginBefore silenceSpeed soundedSpeed in
  Fin 0 + delayChange.

Definition getStretchSpeedChangeMultiplier (s : StretchInfo) : number :=
  ((endTime s - startTime s) + (startValue s - endValue s)) / (endTime s - startTime s).

(** Imported by the controller as [getMomentOutputTime]. *)
Definition getStretcherDelayForInputMoment
    (momentTime lookaheadDelay : Time)
    (lastScheduledStretcherDelayReset : StretchInfo) : Time :=
  let stretch := lastScheduledStretcherDelayReset in
  let stretchEndTotalDelay :=
    getDelayFromInputToStretcherOutput lookaheadDelay (endValue stretch) in
  if momentTime + stretchEndTotalDelay >=? endTime stretch then
    momentTime + stretchEndTotalDelay
  else
    let originalTargetMomentOffsetRelativeToStretchStart :=
      momentTime + getDelayFromInputToStretcherOutput lookaheadDelay (startValue stretch)
      - startTime stretch in
    let playbackSpeedupDuringStretch := getStretchSpeedChangeMultiplier stretch in
    let finalTargetMomentOffsetRelativeToStretchStart :=
      originalTargetMomentOffsetRelativeToStretchStart / playbackSpeedupDuringStretch in
    startTime stretch + finalTargetMomentOffsetRelativeToStretchStart.

Definition smallestNonNormalAbove1 : number := Fin (qc 1002 1000).
Definition biggestNonNormalBelow1 : number :=
  Fin 1 - (smallestNonNormalAbove1 - Fin 1).

Definition transformSpeed (speed : number) : number :=
  if (biggestNonNormalBelow1 <? speed) && (speed <? smallestNonNormalAbove1) then
    if smallestNonNormalAbove1 - speed <? speed - biggestNonNormalBelow1
    then biggestNonNormalBelow1
    else smallestNonNormalAbove1
  else speed.

End Helpers.

(** ** Settings

    [Settings] is the type of [defaultSettings.json]: a plain object holding
    one value per setting.  The controller reads [soundedSpeed],
    [silenceSpeed], [marginBefore] and [volumeThreshold]; which other
    properties the object has is left open.  It is a finite map from
    property names to values, so that the object spread of
    [updateSettings] treats every property alike. *)

Abbreviation Settings := (gmap string number).

(** [o[k]], the read of a property.  An absent property reads as
    [undefined]; every read the controller makes feeds arithmetic, a
    [===] against a number or a numeric attribute, where [undefined]
    behaves as [NaN]. *)
Definition prop (o : Settings) (k : string) : number := default NaN (o !! k).

(** [{...a, ...b}]: the properties of [b] win. *)
Definition spread {A : Type} (a b : gmap string A) : gmap string A := b ∪ a.

(** ** The controller's state *)

(** [PitchPreservingStretcherNode] is imported by the controller; what the
    controller does with it is the sequence of calls it makes. *)
Inductive StretcherCall : Type :=
  | Stretch (startValue endValue startTime endTime : Time)
  | InterruptLastScheduledStretch (interruptAtValue interruptAtTime : Time)
  | SetDelay (value : Time)
  | DestroyStretcher.

(** Where the media element source is connected. *)
Inductive SrcRoute : Type := ToEngine | ToDestination.

(** What [init] creates once the worklet modules are loaded. *)
Record Nodes : Type := mkNodes {
  (* _silenceDetectorNode.parameters.get('volumeThreshold').value *)
  volumeThreshold : number;
  (* _silenceDetectorNode.parameters.get('durationThreshold').value *)
  durationThreshold : number;
  (* _silenceDetectorNode.port is open and has the handler *)
  portOpen : bool;
  (* _lookahead.delayTime.value *)
  lookaheadDelayTime : Time;
  (* calls made on _stretcher, the latest first *)
  stretcher : list StretcherCall;
  srcRoute : SrcRoute;
  (* the variable of init() that the message handler closes over *)
  lastScheduledStretcherDelayReset : option StretchInfo;
}.

Inductive PromiseState : Type := NoPromise | Pending | Resolved.

Record Controller : Type := mkController {
  (* this.element.playbackRate *)
  playbackRate : number;
  settings : Settings;
  _initPromise : PromiseState;
  (* destroy() calls suspended at [await this._initPromise] *)
  awaitingInit : nat;
  nodes : option Nodes;
}.

(** [new Controller(videoElement, settings)] on an element playing at
    [rate]. *)
Definition constructor (rate : number) (s : Settings) : Controller :=
  mkController rate s NoPromise 0 None.

(** ** Statements: state and exceptions *)

Inductive outcome (A : Type) : Type :=
  | Ok (a : A)
  | TypeError.
Arguments Ok {A} a.
Arguments TypeError {A}.

Definition M (A : Type) : Type := Controller -> outcome A * Controller.

Definition ret {A} (a : A) : M A := fun c => (Ok a, c).

Definition bind {A B} (m : M A) (k : A -> M B) : M B :=
  fun c =>
    match m c with
    | (Ok a, c') => k a c'
    | (TypeError, c') => (TypeError, c')
    end.

Notation "x <- m ;; k" := (bind m (fun x => k))
  (at level 100, m at next level, right associativity).
Notation "m ;; k" := (bind m (fun _ => k))
  (at level 100, right associativity).

Definition this : M Controller := fun c => (Ok c, c).

(** The nodes; reading a member of a node that [init] has not created yet
    throws. *)
Definition getNodes : M Nodes :=
  fun c => match nodes c with
           | Some n => (Ok n, c)
           | None => (TypeError, c)
           end.

Definition setNodes (f : Nodes -> Nodes) : M unit :=
  n <- getNodes ;;
  fun c => (Ok tt, mkController (playbackRate c) (settings c) (_initPromise c)
                     (awaitingInit c) (Some (f n))).

Definition set_playbackRate (v : number) : M unit :=
  fun c => (Ok tt, mkController v (settings c) (_initPromise c) (awaitingInit c) (nodes c)).

Definition set_settings (s : Settings) : M unit :=
  fun c => (Ok tt, mkController (playbackRate c) s (_initPromise c) (awaitingInit c) (nodes c)).

Definition set_initPromise (p : PromiseState) : M unit :=
  fun c => (Ok tt, mkController (playbackRate c) (settings c) p (awaitingInit c) (nodes c)).

Definition set_awaitingInit (k : nat) : M unit :=
  fun c => (Ok tt, mkController (playbackRate c) (settings c) (_initPromise c) k (nodes c)).

Definition set_volumeThreshold (v : number) : M unit :=
  setNodes (fun n => mkNodes v (durationThreshold n) (portOpen n) (lookaheadDelayTime n)
                       (stretcher n) (srcRoute n) (lastScheduledStretcherDelayReset n)).

Definition set_durationThreshold (v : number) : M unit :=
  setNodes (fun n => mkNodes (volumeThreshold n) v (portOpen n) (lookaheadDelayTime n)
                       (stretcher n) (srcRoute n) (lastScheduledStretcherDelayReset n)).

Definition set_portOpen (b : bool) : M unit :=
  setNodes (fun n => mkNodes (volumeThreshold n) (durationThreshold n) b (lookaheadDelayTime n)
                       (stretcher n) (srcRoute n) (lastScheduledStretcherDelayReset n)).

Definition set_lookaheadDelayTime (v : Time) : M unit :=
  setNodes (fun n => mkNodes (volumeThreshold n) (durationThreshold n) (portOpen n) v
                       (stretcher n) (srcRoute n) (lastScheduledStretcherDelayReset n)).

Definition callStretcher (call : StretcherCall) : M unit :=
  setNodes (fun n => mkNodes (volumeThreshold n) (durationThreshold n) (portOpen n)
                       (lookaheadDelayTime n) (call :: stretcher n) (srcRoute n)
                       (lastScheduledStretcherDelayReset n)).

Definition set_srcRoute (r : SrcRoute) : M unit :=
  setNodes (fun n => mkNodes (volumeThreshold n) (durationThreshold n) (portOpen n)
                       (lookaheadDelayTime n) (stretcher n) r
                       (lastScheduledStretcherDelayReset n)).

Definition set_lastScheduledStretcherDelayReset (s : StretchInfo) : M unit :=
  setNodes (fun n => mkNodes (volumeThreshold n) (durationThreshold n) (portOpen n)
                       (lookaheadDelayTime n) (stretcher n) (srcRoute n) (Some s)).

(** Reading a member of [lastScheduledStretcherDelayReset] while it is
    [null] throws. *)
Definition getLastScheduledStretcherDelayReset : M StretchInfo :=
  n <- getNodes ;;
  fun c => match lastScheduledStretcherDelayReset n with
           | Some s => (Ok s, c)
           | None => (TypeError, c)
           end.

(** ** The controller's methods *)

Definition _getSilenceDetectorNodeDurationThreshold (marginBefore soundedSpeed : number) : Time :=
  getRealtimeMargin marginBefore soundedSpeed.

Definition getTotalDelay := getDelayFromInputToStretcherOutput.
Definition getMomentOutputTime := getStretcherDelayForInputMoment.

Definition _setStateAccordingToSettings
    (newSettings : Settings) (oldSettings : option Settings) : M unit :=
  match oldSettings with
  | None =>
      c <- this ;;
      set_playbackRate (prop (settings c) "soundedSpeed")
  | Some oldSettings =>
      c <- this ;;
      let currSpeedName :=
        List.find (fun speedSettingName =>
                     (playbackRate c === prop oldSettings speedSettingName)%js)
                  ["silenceSpeed"; "soundedSpeed"]%string in
      match currSpeedName with
      | Some currSpeedName => set_playbackRate (prop newSettings currSpeedName)
      | None => ret tt
      end
  end ;;
  set_volumeThreshold (prop newSettings "volumeThreshold") ;;
  set_durationThreshold
    (_getSilenceDetectorNodeDurationThreshold
       (prop newSettings "marginBefore") (prop newSettings "soundedSpeed")) ;;
  set_lookaheadDelayTime
    (getNewLookaheadDelay (prop newSettings "marginBefore")
       (prop newSettings "soundedSpeed") (prop newSettings "silenceSpeed")) ;;
  c <- this ;;
  callStretcher
    (SetDelay (getStretcherSoundedDelay (prop (settings c) "marginBefore")
                 (prop (settings c) "soundedSpeed") (prop (settings c) "silenceSpeed"))).

Definition updateSettings (newChangedSettings : Settings) : M unit :=
  c <- this ;;
  let oldSettings := settings c in
  let newSettings := spread (settings c) newChangedSettings in
  _setStateAccordingToSettings newSettings (Some oldSettings) ;;
  set_settings newSettings.

(** ** The silence detector's messages *)

Inductive SilenceStartOrEnd : Type := silenceStart | silenceEnd.

Record Message : Type := mkMessage {
  time : Time;
  type : SilenceStartOrEnd;
}.

Section Handler.
Local Open Scope js_scope.

(** [_silenceDetectorNode.port.onmessage].  The calls to [log] (made
    outside production builds only) record values and change nothing. *)
Definition onmessage (msg : Message) : M unit :=
  let eventTime := time msg in
  match type msg with
  | silenceEnd =>
      c <- this ;;
      let s := settings c in
      set_playbackRate (prop s "soundedSpeed") ;;
      last <- getLastScheduledStretcherDelayReset ;;
      let lastSilenceSpeedLastsForRealtime := eventTime - newSpeedStartInputTime last in
      let lastSilenceSpeedLastsForVideoTime :=
        lastSilenceSpeedLastsForRealtime * prop s "silenceSpeed" in
      let marginBeforePartAtSilenceSpeedVideoTimeDuration :=
        Num.min lastSilenceSpeedLastsForVideoTime (prop s "marginBefore") in
      let marginBeforePartAlreadyAtSoundedSpeedVideoTimeDuration :=
        prop s "marginBefore" - marginBeforePartAtSilenceSpeedVideoTimeDuration in
      let marginBeforePartAtSilenceSpeedRealTimeDuration :=
        marginBeforePartAtSilenceSpeedVideoTimeDuration / prop s "silenceSpeed" in
      let marginBeforePartAlreadyAtSoundedSpeedRealTimeDuration :=
        marginBeforePartAlreadyAtSoundedSpeedVideoTimeDuration / prop s "soundedSpeed" in
      let marginBeforeStartInputTime :=
        eventTime
        - marginBeforePartAtSilenceSpeedRealTimeDuration
        - marginBeforePartAlreadyAtSoundedSpeedRealTimeDuration in
      n <- getNodes ;;
      let lookahead := lookaheadDelayTime n in
      let marginBeforeStartOutputTime :=
        getMomentOutputTime marginBeforeStartInputTime lookahead last in
      let marginBeforeStartOutputTimeTotalDelay :=
        marginBeforeStartOutputTime - marginBeforeStartInputTime in
      let marginBeforeStartOutputTimeStretcherDelay :=
        marginBeforeStartOutputTimeTotalDelay - lookahead in
      (if marginBeforeStartOutputTime <? endTime last then
         callStretcher
           (InterruptLastScheduledStretch
              marginBeforeStartOutputTimeStretcherDelay marginBeforeStartOutputTime)
       else ret tt) ;;
      let marginBeforePartAtSilenceSpeedStartOutputTime :=
        marginBeforeStartOutputTime + marginBeforePartAlreadyAtSoundedSpeedRealTimeDuration in
      let stretcherDelayIncrease :=
        getStretcherDelayChange marginBeforePartAtSilenceSpeedRealTimeDuration
          (prop s "silenceSpeed") (prop s "soundedSpeed") in
      let finalStretcherDelay :=
        marginBeforeStartOutputTimeStretcherDelay + stretcherDelayIncrease in
      callStretcher
        (Stretch marginBeforeStartOutputTimeStretcherDelay
                 finalStretcherDelay
                 marginBeforePartAtSilenceSpeedStartOutputTime
                 (eventTime + getTotalDelay lookahead finalStretcherDelay))
  | silenceStart =>
      c <- this ;;
      let s := settings c in
      set_playbackRate (prop s "silenceSpeed") ;;
      let oldRealtimeMargin := getRealtimeMargin (prop s "marginBefore") (prop s "soundedSpeed") in
      let stretcherDelayStartValue :=
        getStretcherSoundedDelay (prop s "marginBefore") (prop s "soundedSpeed")
          (prop s "silenceSpeed") in
      n <- getNodes ;;
      let startIn :=
        getTotalDelay (lookaheadDelayTime n) stretcherDelayStartValue - oldRealtimeMargin in
      let speedUpBy := prop s "silenceSpeed" / prop s "soundedSpeed" in
      let originalRealtimeSpeed := Fin 1 in
      let delayDecreaseSpeed := speedUpBy - originalRealtimeSpeed in
      let snippetNewDuration := stretcherDelayStartValue / delayDecreaseSpeed in
      let startTime := eventTime + startIn in
      let endTime := startTime + snippetNewDuration in
      callStretcher (Stretch stretcherDelayStartValue (Fin 0) startTime endTime) ;;
      set_lastScheduledStretcherDelayReset
        (mkStretchInfo eventTime startTime stretcherDelayStartValue endTime (Fin 0))
  end.

End Handler.

(** A message posted by the detector reaches the handler only while the
    port exists and is open. *)
Definition deliver (msg : Message) : M unit :=
  fun c =>
    match nodes c with
    | Some n => if portOpen n then onmessage msg c else (Ok tt, c)
    | None => (Ok tt, c)
    end.

(** ** Set-up and tear-down

    [init] and [destroy] are [async].  [init] runs up to its first [await]
    when it is called ([init_start]) and the rest once the worklet modules
    are loaded ([init_resume]).  [destroy] awaits [_initPromise] first:
    called while the promise is pending, it is suspended, and its body runs
    when [init] resolves the promise. *)

Definition init_start : M unit :=
  set_initPromise Pending ;;
  c <- this ;;
  set_playbackRate (prop (settings c) "soundedSpeed").

(** The body of [destroy] after the [await]. *)
Definition destroy_body : M unit :=
  (* src = mediaElementSourcesMap.get(this.element); src.disconnect();
     src.connect(audioContext.destination) *)
  set_srcRoute ToDestination ;;
  set_portOpen false ;;
  callStretcher DestroyStretcher ;;
  set_playbackRate (Fin 1).

Definition destroy : M unit :=
  c <- this ;;
  match _initPromise c with
  | Pending => set_awaitingInit (S (awaitingInit c))
  | _ => destroy_body
  end.

Fixpoint runAwaiting (k : nat) : M unit :=
  match k with
  | O => ret tt
  | S k' => destroy_body ;; runAwaiting k'
  end.

(** [resolveInitPromise(this)]: the promise is settled and the suspended
    [destroy] calls go on. *)
Definition resolveInitPromise : M unit :=
  set_initPromise Resolved ;;
  c <- this ;;
  set_awaitingInit 0 ;;
  runAwaiting (awaitingInit c).

(** The rest of [init].  [volumeThresholdDefault] is the initial value of
    the detector's [volumeThreshold] parameter, which the processor
    declares; a [DelayNode] starts with a delay of 0. *)
Definition init_resume (volumeThresholdDefault : number) : M unit :=
  c <- this ;;
  (fun c' => (Ok tt,
     mkController (playbackRate c') (settings c') (_initPromise c') (awaitingInit c')
       (Some (mkNodes volumeThresholdDefault
                (_getSilenceDetectorNodeDurationThreshold
                   (prop (settings c) "marginBefore") (prop (settings c) "soundedSpeed"))
                false (Fin 0) [] ToEngine None)))) ;;
  c <- this ;;
  _setStateAccordingToSettings (settings c) None ;;
  set_portOpen true ;;
  resolveInitPromise.

(** Running a statement for its final state. *)
Definition exec {A} (m : M A) (c : Controller) : Controller := snd (m c).

(** An initialised controller: [init] called on a fresh instance and run to
    its end. *)
Definition initialised (rate : number) (s : Settings) (volumeThresholdDefault : number)
    : Controller :=
  exec (init_start ;; init_resume volumeThresholdDefault) (constructor rate s).

(** ** Vocabulary of the specification *)

(** A speed strictly inside the exclusion band around 1. *)
Definition inBand (speed : number) : bool :=
  ((biggestNonNormalBelow1 <? speed) && (speed <? smallestNonNormalAbove1))%js.

(** Distance of a speed to each edge of the band. *)
Definition toUpperEdge (speed : number) : number := (smallestNonNormalAbove1 - speed)%js.
Definition toLowerEdge (speed : number) : number := (speed - biggestNonNormalBelow1)%js.

(** ** Example settings *)

(** The settings of the specification's worked example. *)
Definition exampleSettings : Settings :=
  {[ "soundedSpeed" := Fin (qc 7 4);
     "silenceSpeed" := Fin (qc 4 1);
     "marginBefore" := Fin (qc 2 5);
     "volumeThreshold" := Fin (qc 1 100) ]}%string.

(** Settings whose two speeds are equal. *)
Definition equalSpeedsSettings (marginBefore : number) : Settings :=
  {[ "soundedSpeed" := Fin (qc 2 1);
     "silenceSpeed" := Fin (qc 2 1);
     "marginBefore" := marginBefore;
     "volumeThreshold" := Fin (qc 1 100) ]}%string.

(** The nodes as [init] leaves them for the settings [s]. *)
Definition initialNodes (s : Settings) : Nodes :=
  mkNodes
    (prop s "volumeThreshold")
    (getRealtimeMargin (prop s "marginBefore") (prop s "soundedSpeed"))
    true
    (getNewLookaheadDelay (prop s "marginBefore") (prop s "soundedSpeed")
       (prop s "silenceSpeed"))
    [SetDelay (getStretcherSoundedDelay (prop s "marginBefore") (prop s "soundedSpeed")
                 (prop s "silenceSpeed"))]
    ToEngine
    None.

(** ** Proof automation *)

(** Closed equations between numbers: evaluate, then compare the
    rationals as fractions. *)
Ltac num_eq :=
  vm_compute;
  repeat first [ reflexivity | apply Qc_is_canon; reflexivity | f_equal ].

(** Unfold the statements of the state-and-exception monad. *)
Ltac run_M :=
  unfold set_playbackRate, set_settings,
    set_initPromise, set_awaitingInit, set_volumeThreshold, set_durationThreshold,
    set_portOpen, set_lookaheadDelayTime, callStretcher, set_srcRoute,
    set_lastScheduledStretcherDelayReset, getLastScheduledStretcherDelayReset,
    setNodes, getNodes, bind, ret, this in *;
  simpl in *.

(** Equations between states whose numbers differ by ring identities. *)
Ltac fin_ring := repeat first [ reflexivity | ring | progress f_equal ].

(** Order goals on rationals: move to [Q], where [lra] works. *)
Ltac qc_to_q :=
  unfold Qcle, Qclt, Qcminus, Qcdiv, Qcopp, Qcplus, Qcmult, Q2Qc in *;
  simpl in *;
  rewrite ?Qred_correct in *.

(** Equations between numbers that hold in the field of rationals. *)
Ltac fin_field :=
  repeat first [ reflexivity | progress f_equal | (field; auto) ].

(** ** Sequences of calls

    What the page and the detector do with a controller once [init] has
    run, in the order in which it happens: a call of [updateSettings], or
    a message posted to the handler.  An exception thrown by one of them
    ends that call only. *)

Inductive Call : Type :=
  | CallUpdateSettings (newChangedSettings : Settings)
  | CallDeliver (msg : Message).

Definition call (e : Call) : M unit :=
  match e with
  | CallUpdateSettings p => updateSettings p
  | CallDeliver msg => deliver msg
  end.

Fixpoint calls (es : list Call) (c : Controller) : Controller :=
  match es with
  | [] => c
  | e :: es' => calls es' (exec (call e) c)
  end.

(** Both speeds of a settings object are numbers other than [NaN]. *)
Definition definedSpeeds (s : Settings) : Prop :=
  prop s "soundedSpeed" <> NaN /\ prop s "silenceSpeed" <> NaN.

(** A call that does not set a speed to [NaN]. *)
Definition keepsSpeedsDefined (e : Call) : Prop :=
  match e with
  | CallUpdateSettings p =>
      p !! "soundedSpeed" <> Some NaN /\ p !! "silenceSpeed" <> Some NaN
  | CallDeliver _ => True
  end.

(** The playback rate is one of the two speeds of the settings. *)
Definition rateIsConfigured (c : Controller) : Prop :=
  playbackRate c = prop (settings c) "soundedSpeed" \/
  playbackRate c = prop (settings c) "silenceSpeed".

(** ** Stored values

    What [browser.storage] holds under a key, as far as the migrations look
    at it: a number, a boolean, a string or [null].  A key that is absent
    reads as [undefined]. *)

Inductive jsval : Type :=
  | VNum (x : number)
  | VBool (b : bool)
  | VStr (s : string)
  | VNull.

Abbreviation Storage := (gmap string jsval).

(** [v === 0] *)
Definition isZero (v : option jsval) : bool :=
  match v with
  | Some (VNum x) => (x === Fin 0)%js
  | _ => false
  end.

(** [v ?? d] *)
Definition nullish (v : option jsval) (d : jsval) : jsval :=
  match v with
  | None | Some VNull => d
  | Some w => w
  end.

(** Whether [v ? _ : _] takes its first branch. *)
Definition truthy (v : jsval) : bool :=
  match v with
  | VNum x => negb ((x === Fin 0)%js) && (x === x)%js
  | VBool b => b
  | VStr s => negb (String.eqb s "")
  | VNull => false
  end.

(** ** The migrations *)

Module Migrations.

(** The fix for a sounded speed of 0.  [defaultStep] is
    [defaultSettings.popupSoundedSpeedStep]. *)
Definition fixZeroSoundedSpeed (defaultStep : jsval) (local : Storage) : Storage :=
  let popupSoundedSpeedMin := local !! "popupSoundedSpeedMin" in
  let popupSoundedSpeedStepFromStorage := local !! "popupSoundedSpeedStep" in
  let soundedSpeed := local !! "soundedSpeed" in
  let popupSoundedSpeedStep := nullish popupSoundedSpeedStepFromStorage defaultStep in
  let newValues : Storage := ∅ in
  let newValues :=
    if isZero popupSoundedSpeedMin
    then <["popupSoundedSpeedMin" := popupSoundedSpeedStep]> newValues
    else newValues in
  let newValues :=
    if isZero soundedSpeed
    then <["soundedSpeed" := popupSoundedSpeedStep]> newValues
    else newValues in
  spread local newValues.

(** [ToNumber] of a stored value; [stringToNumber] is the conversion of a
    string. *)
Definition toNumber (stringToNumber : string -> number) (v : jsval) : number :=
  match v with
  | VNum x => x
  | VBool true => Fin 1
  | VBool false => Fin 0
  | VStr s => stringToNumber s
  | VNull => Fin 0
  end.

(** The migration that doubles [popupChartLengthInSeconds]. *)
Definition doublePopupChartLength (stringToNumber : string -> number) (local : Storage)
    : Storage :=
  match local !! "popupChartLengthInSeconds" with
  | Some popupChartLengthInSeconds =>
      let newValues : Storage :=
        {[ "popupChartLengthInSeconds" :=
             VNum (toNumber stringToNumber popupChartLengthInSeconds * Fin 2)%js ]} in
      spread local newValues
  | None => local
  end.

(** [migrateFrom1_25_1]: the boolean setting becomes one of two strings,
    and its key is removed.  The two storage calls of the [Promise.all] are
    made in the order in which they are written. *)
Definition migrateFrom1_25_1 (local : Storage) : Storage :=
  match local !! "updateSoundedSpeedWheneverItChangesOnWebsite" with
  | Some updateSoundedSpeedWheneverItChangesOnWebsite =>
      let newValues : Storage :=
        {[ "onPlaybackRateChangeFromOtherScripts" :=
             if truthy updateSoundedSpeedWheneverItChangesOnWebsite
             then VStr "updateSoundedSpeed"
             else VStr "prevent" ]} in
      delete "updateSoundedSpeedWheneverItChangesOnWebsite" (spread local newValues)
  | None => local
  end.

(** [migrateFrom1_6_0]: the settings of the sync storage are written to the
    local storage.  The result is the local storage. *)
Definition migrateFrom1_6_0 (sync local : Storage) : Storage :=
  let settings := sync in
  spread local settings.

End Migrations.

(** ** Listening to storage changes *)

Module StorageListener.

Record StorageChange : Type := mkStorageChange {
  oldValue : option jsval;
  newValue : option jsval;
}.

Abbreviation Changes := (gmap string StorageChange).

(** What the module takes from elsewhere: the name of the storage area it
    listens to, the build flag
    [BROWSER_MAY_HAVE_EQUAL_OLD_AND_NEW_VALUE_IN_STORAGE_CHANGE_OBJECT],
    and the helper [filterOutUnchangedValues]. *)
Record Env : Type := mkEnv {
  mainStorageAreaName : string;
  mayHaveEqualOldAndNewValue : bool;
  filterOutUnchangedValues : Changes -> Changes;
}.

(** A listener given by a caller is a function object; [ListenerId] is its
    identity.  The function that [createWrapperListener] returns is a new
    object at every call: it has an identity of its own and holds the
    listener it wraps. *)
Definition ListenerId := nat.

Record Wrapper : Type := mkWrapper {
  wrapperId : nat;
  wrapped : ListenerId;
}.

Record State : Type := mkState {
  (* srcListenerToWrapperListener *)
  registry : gmap nat Wrapper;
  (* the listeners of browser.storage.onChanged, in the order of addListener *)
  attached : list Wrapper;
  (* the identity of the next function object *)
  fresh : nat;
  (* the calls listener(changes) made so far, the earliest first *)
  called : list (ListenerId * Changes);
}.

Definition empty : State := mkState ∅ [] 0 [].

Definition createWrapperListener (listener : ListenerId) (st : State) : Wrapper * State :=
  (mkWrapper (fresh st) listener,
   mkState (registry st) (attached st) (S (fresh st)) (called st)).

(** A call of the function returned by [createWrapperListener]. *)
Definition callWrapper (env : Env) (w : Wrapper) (changes : Changes) (areaName : string)
    (st : State) : State :=
  if negb (String.eqb areaName (mainStorageAreaName env)) then st
  else
    let callListener (changes : Changes) :=
      mkState (registry st) (attached st) (fresh st)
        (called st ++ [(wrapped w, changes)]) in
    if mayHaveEqualOldAndNewValue env then
      let changes := filterOutUnchangedValues env changes in
      if Nat.eqb (size changes) 0 then st
      else callListener changes
    else callListener changes.

Definition addOnStorageChangedListener (listener : ListenerId) (st : State) : State :=
  let (actualListener, st) := createWrapperListener listener st in
  mkState (<[listener := actualListener]> (registry st))
    (attached st ++ [actualListener]) (fresh st) (called st).

Definition removeOnStorageChangedListener (listener : ListenerId) (st : State) : State :=
  match registry st !! listener with
  | None => st
  | Some actualListener =>
      mkState (registry st)
        (List.filter (fun w => negb (Nat.eqb (wrapperId w) (wrapperId actualListener)))
           (attached st))
        (fresh st) (called st)
  end.

(** The browser fires [storage.onChanged]: every attached function is
    called, in the order in which they were attached. *)
Definition fire (env : Env) (changes : Changes) (areaName : string) (st : State) : State :=
  fold_left (fun st w => callWrapper env w changes areaName st) (attached st) st.

(** What a wrapper passes to its listener for an event, if anything. *)
Definition forwarded (env : Env) (changes : Changes) (areaName : string) : option Changes :=
  if negb (String.eqb areaName (mainStorageAreaName env)) then None
  else if mayHaveEqualOldAndNewValue env then
    if Nat.eqb (size (filterOutUnchangedValues env changes)) 0 then None
    else Some (filterOutUnchangedValues env changes)
  else Some changes.

(** [addOnStorageChangedListener] for each listener of a list, in order. *)
Definition adds (listeners : list ListenerId) (st : State) : State :=
  fold_left (fun st listener => addOnStorageChangedListener listener st) listeners st.

(** Every attached function is older than the next one to be created. *)
Definition wellFormed (st : State) : Prop :=
  Forall (fun w => (wrapperId w < fresh st)%nat) (attached st).

End StorageListener.

(** * Properties *)

(** ** Arithmetic of [number] *)

Section NumFacts.
Local Open Scope js_scope.

Lemma add_assoc (x y z : number) : x + (y + z) = x + y + z.
Proof.
  destruct x, y, z; simpl; try reflexivity.
  f_equal. ring.
Qed.

Lemma add_0_r (x : number) : x + Fin 0 = x.
Proof. destruct x; simpl; try reflexivity. f_equal. ring. Qed.

Lemma add_0_l (x : number) : Fin 0 + x = x.
Proof. destruct x; simpl; try reflexivity. f_equal. ring. Qed.

Lemma is_zero_true (a : Qc) : is_zero a = true <-> a = 0%Qc.
Proof.
  unfold is_zero. rewrite Qceq_alt.
  destruct (a ?= 0)%Qc; split; congruence.
Qed.

Lemma is_zero_false (a : Qc) : is_zero a = false <-> a <> 0%Qc.
Proof.
  rewrite <- is_zero_true. destruct (is_zero a); split; congruence.
Qed.

Lemma div_Fin (a b : Qc) : b <> 0%Qc -> Fin a / Fin b = Fin (a / b).
Proof. intros H. simpl. apply is_zero_false in H. now rewrite H. Qed.

Lemma div_0_0 : Fin 0 / Fin 0 = NaN.
Proof. reflexivity. Qed.

Lemma lt_Fin (a b : Qc) : (Fin a <? Fin b) = true <-> (a < b)%Qc.
Proof.
  unfold lt; simpl. rewrite Qclt_alt.
  destruct (a ?= b)%Qc; split; congruence.
Qed.

Lemma ge_Fin (a b : Qc) : (Fin a >=? Fin b) = true <-> (b <= a)%Qc.
Proof.
  unfold ge; simpl. rewrite (Qcge_alt a b).
  destruct (a ?= b)%Qc; split; congruence.
Qed.

Lemma strict_eq_Fin (a b : Qc) : (Fin a === Fin b) = true <-> a = b.
Proof.
  unfold strict_eq; simpl. rewrite Qceq_alt.
  destruct (a ?= b)%Qc; split; congruence.
Qed.

Lemma min_Fin_0 (a : Qc) : (0 <= a)%Qc -> Num.min (Fin a) (Fin 0) = Fin 0.
Proof.
  intros H. unfold Num.min; simpl.
  destruct (a ?= 0)%Qc eqn:E; try reflexivity.
  - apply Qceq_alt in E. now subst.
  - apply Qclt_alt in E. exfalso. eapply Qclt_not_le; eauto.
Qed.

End NumFacts.

(** ** The input-to-output time mapping *)

Section TimeMapper.
Local Open Scope js_scope.

(** C1.  For every moment, lookahead delay and last schedule (so also for
    those that meet the contract that the answer is not before the
    schedule's start), [getStretcherDelayForInputMoment] returns
    [momentTime + lookaheadDelay + endValue] when
    [momentTime + (lookaheadDelay + endValue) >= endTime], and otherwise
    [startTime + ((momentTime + lookaheadDelay + startValue) - startTime) / m]
    with [m = ((endTime - startTime) + (startValue - endValue)) / (endTime - startTime)],
    the value of [getStretchSpeedChangeMultiplier]. *)
Theorem getStretcherDelayForInputMoment_cases
    (momentTime lookaheadDelay : Time) (lastSchedule : StretchInfo) :
  let m := ((endTime lastSchedule - startTime lastSchedule)
            + (startValue lastSchedule - endValue lastSchedule))
           / (endTime lastSchedule - startTime lastSchedule) in
  getStretchSpeedChangeMultiplier lastSchedule = m /\
  getStretcherDelayForInputMoment momentTime lookaheadDelay lastSchedule =
    if momentTime + (lookaheadDelay + endValue lastSchedule) >=? endTime lastSchedule
    then momentTime + lookaheadDelay + endValue lastSchedule
    else startTime lastSchedule
         + ((momentTime + lookaheadDelay + startValue lastSchedule) - startTime lastSchedule) / m.
Proof.
  intros m. split; [reflexivity|].
  unfold getStretcherDelayForInputMoment, getDelayFromInputToStretcherOutput,
    getStretchSpeedChangeMultiplier.
  fold m. rewrite !add_assoc. reflexivity.
Qed.

(** A schedule that is already over at the moment's output time leaves the
    moment delayed by the lookahead and the schedule's final delay. *)
Lemma getStretcherDelayForInputMoment_after_end (t l : Qc) (s : StretchInfo) (e v : Qc) :
  endTime s = Fin e -> endValue s = Fin v -> (e <= t + (l + v))%Qc ->
  getStretcherDelayForInputMoment (Fin t) (Fin l) s = Fin (t + (l + v)).
Proof.
  intros He Hv Hle. unfold getStretcherDelayForInputMoment, getDelayFromInputToStretcherOutput.
  rewrite He, Hv. simpl add.
  apply ge_Fin in Hle. now rewrite Hle.
Qed.

End TimeMapper.

(** ** The exclusion band around speed 1 *)

Section TransformSpeed.
Local Open Scope js_scope.

Lemma transformSpeed_outside (speed : number) :
  inBand speed = false -> transformSpeed speed = speed.
Proof. unfold inBand, transformSpeed. now intros ->. Qed.

Lemma transformSpeed_inside (speed : number) :
  inBand speed = true ->
  transformSpeed speed =
    if smallestNonNormalAbove1 - speed <? speed - biggestNonNormalBelow1
    then biggestNonNormalBelow1 else smallestNonNormalAbove1.
Proof. unfold inBand, transformSpeed. now intros ->. Qed.

Lemma transformSpeed_range (speed : number) :
  transformSpeed speed = biggestNonNormalBelow1 \/
  transformSpeed speed = smallestNonNormalAbove1 \/
  (transformSpeed speed = speed /\ inBand speed = false).
Proof.
  destruct (inBand speed) eqn:E.
  - rewrite (transformSpeed_inside _ E).
    destruct (_ <? _); auto.
  - right; right. split; [now apply transformSpeed_outside | reflexivity].
Qed.

Lemma inBand_edges :
  inBand biggestNonNormalBelow1 = false /\ inBand smallestNonNormalAbove1 = false.
Proof. split; reflexivity. Qed.

(** C9.  [transformSpeed] is idempotent, and its result is never strictly
    inside the exclusion band. *)
Theorem transformSpeed_idempotent (speed : number) :
  transformSpeed (transformSpeed speed) = transformSpeed speed /\
  inBand (transformSpeed speed) = false.
Proof.
  destruct inBand_edges as [Hlo Hhi].
  destruct (transformSpeed_range speed) as [H | [H | [H Hout]]]; rewrite H.
  - split; [now apply transformSpeed_outside | exact Hlo].
  - split; [now apply transformSpeed_outside | exact Hhi].
  - split; [exact H | exact Hout].
Qed.

(** C4, at the speed 1.001.  The speed is strictly inside the band and
    strictly nearer to the upper edge 1.002 (distance 1/1000) than to the
    lower edge 0.998 (distance 3/1000), and [transformSpeed] returns the
    lower edge. *)
Theorem transformSpeed_1001_returns_farther_edge :
  let speed := Fin (qc 1001 1000) in
  inBand speed = true /\
  toUpperEdge speed = Fin (qc 1 1000) /\
  toLowerEdge speed = Fin (qc 3 1000) /\
  (toUpperEdge speed <? toLowerEdge speed) = true /\
  transformSpeed speed = biggestNonNormalBelow1 /\
  biggestNonNormalBelow1 = Fin (qc 998 1000).
Proof.
  repeat split; num_eq.
Qed.

(** What the code does inside the band: whenever one edge is strictly
    nearer, the other one is returned. *)
Lemma transformSpeed_inside_farther (speed : number) :
  inBand speed = true ->
  ((toUpperEdge speed <? toLowerEdge speed) = true ->
     transformSpeed speed = biggestNonNormalBelow1) /\
  ((toLowerEdge speed <? toUpperEdge speed) = true ->
     transformSpeed speed = smallestNonNormalAbove1).
Proof.
  intros Hin. rewrite (transformSpeed_inside _ Hin).
  fold (toUpperEdge speed) (toLowerEdge speed).
  split; intros H.
  - now rewrite H.
  - destruct (toUpperEdge speed <? toLowerEdge speed) eqn:E; [|reflexivity].
    exfalso. revert H E. unfold lt.
    destruct (toUpperEdge speed), (toLowerEdge speed); simpl; try discriminate.
    unfold Qccompare. rewrite <- (Qcompare_antisym q q0).
    destruct (q ?= q0)%Q; discriminate.
Qed.

End TransformSpeed.

(** ** Applying settings *)

Section ApplySettings.

(** The playback rate that the speed-selection step of
    [_setStateAccordingToSettings] leaves. *)
Lemma _setStateAccordingToSettings_playbackRate
    (newSettings : Settings) (oldSettings : option Settings) (c : Controller) :
  playbackRate (exec (_setStateAccordingToSettings newSettings oldSettings) c) =
    match oldSettings with
    | None => prop (settings c) "soundedSpeed"
    | Some old =>
        if (playbackRate c === prop old "silenceSpeed")%js
        then prop newSettings "silenceSpeed"
        else if (playbackRate c === prop old "soundedSpeed")%js
        then prop newSettings "soundedSpeed"
        else playbackRate c
    end.
Proof.
  unfold exec, _setStateAccordingToSettings.
  destruct oldSettings as [old|]; run_M.
  - destruct (playbackRate c === prop old "silenceSpeed")%js;
      [| destruct (playbackRate c === prop old "soundedSpeed")%js];
      run_M; destruct (nodes c); reflexivity.
  - destruct (nodes c); reflexivity.
Qed.

(** On a controller whose nodes exist, [_setStateAccordingToSettings]
    returns normally, and this is the state it leaves. *)
Lemma _setStateAccordingToSettings_run
    (newSettings : Settings) (oldSettings : option Settings) (c : Controller) (n : Nodes) :
  nodes c = Some n ->
  _setStateAccordingToSettings newSettings oldSettings c =
    (Ok tt,
     mkController
       (playbackRate (exec (_setStateAccordingToSettings newSettings oldSettings) c))
       (settings c) (_initPromise c) (awaitingInit c)
       (Some (mkNodes
                (prop newSettings "volumeThreshold")
                (getRealtimeMargin (prop newSettings "marginBefore")
                   (prop newSettings "soundedSpeed"))
                (portOpen n)
                (getNewLookaheadDelay (prop newSettings "marginBefore")
                   (prop newSettings "soundedSpeed") (prop newSettings "silenceSpeed"))
                (SetDelay (getStretcherSoundedDelay (prop (settings c) "marginBefore")
                             (prop (settings c) "soundedSpeed")
                             (prop (settings c) "silenceSpeed")) :: stretcher n)
                (srcRoute n)
                (lastScheduledStretcherDelayReset n)))).
Proof.
  intros Hn. rewrite _setStateAccordingToSettings_playbackRate.
  unfold _setStateAccordingToSettings, _getSilenceDetectorNodeDurationThreshold.
  destruct oldSettings as [old|]; run_M.
  - destruct (playbackRate c === prop old "silenceSpeed")%js;
      [| destruct (playbackRate c === prop old "soundedSpeed")%js];
      run_M; rewrite Hn; reflexivity.
  - rewrite Hn; reflexivity.
Qed.

(** Before [init] has created the nodes, it throws, and the settings stay. *)
Lemma _setStateAccordingToSettings_throws
    (newSettings : Settings) (oldSettings : option Settings) (c : Controller) :
  nodes c = None ->
  fst (_setStateAccordingToSettings newSettings oldSettings c) = TypeError /\
  settings (exec (_setStateAccordingToSettings newSettings oldSettings) c) = settings c.
Proof.
  intros Hn. unfold exec, _setStateAccordingToSettings.
  destruct oldSettings as [old|]; run_M.
  - destruct (playbackRate c === prop old "silenceSpeed")%js;
      [| destruct (playbackRate c === prop old "soundedSpeed")%js];
      run_M; rewrite Hn; split; reflexivity.
  - rewrite Hn; split; reflexivity.
Qed.

(** The state it leaves when it throws: the speed-selection step is done,
    nothing else is. *)
Lemma _setStateAccordingToSettings_throws_run
    (newSettings : Settings) (oldSettings : option Settings) (c : Controller) :
  nodes c = None ->
  _setStateAccordingToSettings newSettings oldSettings c =
    (TypeError,
     mkController
       (playbackRate (exec (_setStateAccordingToSettings newSettings oldSettings) c))
       (settings c) (_initPromise c) (awaitingInit c) None).
Proof.
  intros Hn. rewrite _setStateAccordingToSettings_playbackRate.
  unfold _setStateAccordingToSettings.
  destruct oldSettings as [old|]; run_M.
  - destruct (playbackRate c === prop old "silenceSpeed")%js;
      [| destruct (playbackRate c === prop old "soundedSpeed")%js];
      run_M; rewrite Hn; try reflexivity.
    destruct c; simpl in *; now subst.
  - rewrite Hn; reflexivity.
Qed.

Lemma _setStateAccordingToSettings_nodes
    (newSettings : Settings) (oldSettings : option Settings) (c : Controller) (n : Nodes) :
  nodes c = Some n ->
  nodes (exec (_setStateAccordingToSettings newSettings oldSettings) c) =
    Some (mkNodes
            (prop newSettings "volumeThreshold")
            (getRealtimeMargin (prop newSettings "marginBefore")
               (prop newSettings "soundedSpeed"))
            (portOpen n)
            (getNewLookaheadDelay (prop newSettings "marginBefore")
               (prop newSettings "soundedSpeed") (prop newSettings "silenceSpeed"))
            (SetDelay (getStretcherSoundedDelay (prop (settings c) "marginBefore")
                         (prop (settings c) "soundedSpeed")
                         (prop (settings c) "silenceSpeed")) :: stretcher n)
            (srcRoute n)
            (lastScheduledStretcherDelayReset n)).
Proof.
  intros Hn. unfold exec.
  now rewrite (_setStateAccordingToSettings_run _ _ _ _ Hn).
Qed.

End ApplySettings.

Section UpdateSettings.

Lemma spread_lookup_absent {A} (a b : gmap string A) (k : string) :
  b !! k = None -> spread a b !! k = a !! k.
Proof. intros H. unfold spread. now rewrite lookup_union_r. Qed.

Lemma spread_lookup_present {A} (a b : gmap string A) (k : string) (v : A) :
  b !! k = Some v -> spread a b !! k = Some v.
Proof. intros H. unfold spread. now apply lookup_union_Some_l. Qed.

(** [updateSettings] on a controller whose nodes exist. *)
Lemma updateSettings_run (newChangedSettings : Settings) (c : Controller) (n : Nodes) :
  nodes c = Some n ->
  let oldSettings := settings c in
  let newSettings := spread (settings c) newChangedSettings in
  updateSettings newChangedSettings c =
    (Ok tt,
     mkController
       (playbackRate (exec (_setStateAccordingToSettings newSettings (Some oldSettings)) c))
       newSettings (_initPromise c) (awaitingInit c)
       (Some (mkNodes
                (prop newSettings "volumeThreshold")
                (getRealtimeMargin (prop newSettings "marginBefore")
                   (prop newSettings "soundedSpeed"))
                (portOpen n)
                (getNewLookaheadDelay (prop newSettings "marginBefore")
                   (prop newSettings "soundedSpeed") (prop newSettings "silenceSpeed"))
                (SetDelay (getStretcherSoundedDelay (prop oldSettings "marginBefore")
                             (prop oldSettings "soundedSpeed")
                             (prop oldSettings "silenceSpeed")) :: stretcher n)
                (srcRoute n)
                (lastScheduledStretcherDelayReset n)))).
Proof.
  intros Hn oldSettings newSettings.
  subst oldSettings newSettings.
  unfold updateSettings, bind, this. cbv beta zeta.
  rewrite (_setStateAccordingToSettings_run _ (Some (settings c)) c n Hn).
  reflexivity.
Qed.

Lemma updateSettings_exec (newChangedSettings : Settings) (c : Controller) (n : Nodes) :
  nodes c = Some n ->
  let oldSettings := settings c in
  let newSettings := spread (settings c) newChangedSettings in
  exec (updateSettings newChangedSettings) c =
     mkController
       (playbackRate (exec (_setStateAccordingToSettings newSettings (Some oldSettings)) c))
       newSettings (_initPromise c) (awaitingInit c)
       (Some (mkNodes
                (prop newSettings "volumeThreshold")
                (getRealtimeMargin (prop newSettings "marginBefore")
                   (prop newSettings "soundedSpeed"))
                (portOpen n)
                (getNewLookaheadDelay (prop newSettings "marginBefore")
                   (prop newSettings "soundedSpeed") (prop newSettings "silenceSpeed"))
                (SetDelay (getStretcherSoundedDelay (prop oldSettings "marginBefore")
                             (prop oldSettings "soundedSpeed")
                             (prop oldSettings "silenceSpeed")) :: stretcher n)
                (srcRoute n)
                (lastScheduledStretcherDelayReset n))).
Proof.
  intros Hn oldSettings newSettings. unfold exec.
  now rewrite (updateSettings_run _ _ _ Hn).
Qed.

(** Before [init] has created the nodes, [updateSettings] throws once the
    speed-selection step is done: the playback rate may have changed, the
    settings have not. *)
Lemma updateSettings_throws_run (newChangedSettings : Settings) (c : Controller) :
  nodes c = None ->
  let oldSettings := settings c in
  let newSettings := spread (settings c) newChangedSettings in
  updateSettings newChangedSettings c =
    (TypeError,
     mkController
       (playbackRate (exec (_setStateAccordingToSettings newSettings (Some oldSettings)) c))
       oldSettings (_initPromise c) (awaitingInit c) None).
Proof.
  intros Hn oldSettings newSettings.
  subst oldSettings newSettings.
  unfold updateSettings, bind, this. cbv beta zeta.
  rewrite (_setStateAccordingToSettings_throws_run _ (Some (settings c)) c Hn).
  reflexivity.
Qed.

(** X31.  On a controller that [init] has set up, [updateSettings] returns
    normally.  A property absent from its argument keeps its value and a
    property present in it takes the argument's value.  The derived state
    is set first, by [_setStateAccordingToSettings] on the merged and the
    old object while [this.settings] is still the old object: the playback
    rate follows the speed that was active, the detector's two thresholds
    and the lookahead delay are those of the merged object, and the
    stretcher is given the delay of the old object.  The merged object
    replaces [this.settings] in the state this leaves. *)
Theorem updateSettings_after_init
    (newChangedSettings : Settings) (c : Controller) (n : Nodes) :
  nodes c = Some n ->
  let oldSettings := settings c in
  let newSettings := spread oldSettings newChangedSettings in
  (forall k, newChangedSettings !! k = None -> newSettings !! k = oldSettings !! k) /\
  (forall k v, newChangedSettings !! k = Some v -> newSettings !! k = Some v) /\
  exists c1 n1,
    _setStateAccordingToSettings newSettings (Some oldSettings) c = (Ok tt, c1) /\
    settings c1 = oldSettings /\
    playbackRate c1 =
      (if (playbackRate c === prop oldSettings "silenceSpeed")%js
       then prop newSettings "silenceSpeed"
       else if (playbackRate c === prop oldSettings "soundedSpeed")%js
       then prop newSettings "soundedSpeed"
       else playbackRate c) /\
    nodes c1 = Some n1 /\
    volumeThreshold n1 = prop newSettings "volumeThreshold" /\
    durationThreshold n1 =
      getRealtimeMargin (prop newSettings "marginBefore") (prop newSettings "soundedSpeed") /\
    lookaheadDelayTime n1 =
      getNewLookaheadDelay (prop newSettings "marginBefore")
        (prop newSettings "soundedSpeed") (prop newSettings "silenceSpeed") /\
    stretcher n1 =
      SetDelay (getStretcherSoundedDelay (prop oldSettings "marginBefore")
                  (prop oldSettings "soundedSpeed") (prop oldSettings "silenceSpeed"))
      :: stretcher n /\
    updateSettings newChangedSettings c =
      (Ok tt, mkController (playbackRate c1) newSettings (_initPromise c)
                (awaitingInit c) (Some n1)).
Proof.
  intros Hn oldSettings newSettings. repeat split.
  - intros k. apply spread_lookup_absent.
  - intros k v. apply spread_lookup_present.
  - eexists. eexists.
    split; [apply (_setStateAccordingToSettings_run _ _ _ _ Hn)|].
    cbn [settings playbackRate nodes].
    split; [reflexivity|].
    split; [apply (_setStateAccordingToSettings_playbackRate _ (Some oldSettings))|].
    split; [reflexivity|].
    cbn [volumeThreshold durationThreshold lookaheadDelayTime stretcher].
    repeat (split; [reflexivity|]).
    apply (updateSettings_run _ _ _ Hn).
Qed.

(** X30.  Before [init] has created the nodes, [updateSettings] throws and
    [this.settings] is not replaced. *)
Lemma updateSettings_before_init (newChangedSettings : Settings) (c : Controller) :
  nodes c = None ->
  fst (updateSettings newChangedSettings c) = TypeError /\
  settings (exec (updateSettings newChangedSettings) c) = settings c.
Proof.
  intros Hn.
  destruct (_setStateAccordingToSettings_throws
              (spread (settings c) newChangedSettings) (Some (settings c)) c Hn) as [H1 H2].
  unfold exec in *. unfold updateSettings, bind, this. cbv beta zeta.
  destruct (_setStateAccordingToSettings _ _ c) as [[[]|] c']; simpl in *;
    [discriminate | auto].
Qed.

(** C7, as amended.  With the old settings given, the speed-selection step
    of [_setStateAccordingToSettings] leaves the new silence speed when the
    playback rate is the old silence speed; otherwise the new sounded speed
    when the rate is the old sounded speed; otherwise the rate as it was. *)
Theorem applySettings_keeps_logical_speed
    (newSettings oldSettings : Settings) (c : Controller) :
  playbackRate (exec (_setStateAccordingToSettings newSettings (Some oldSettings)) c) =
    if (playbackRate c === prop oldSettings "silenceSpeed")%js
    then prop newSettings "silenceSpeed"
    else if (playbackRate c === prop oldSettings "soundedSpeed")%js
    then prop newSettings "soundedSpeed"
    else playbackRate c.
Proof. apply (_setStateAccordingToSettings_playbackRate _ (Some oldSettings)). Qed.

End UpdateSettings.

Section Initialised.

(** The state [init] leaves. *)
Lemma initialised_eq (rate : number) (s : Settings) (volumeThresholdDefault : number) :
  initialised rate s volumeThresholdDefault =
    mkController (prop s "soundedSpeed") s Resolved 0 (Some (initialNodes s)).
Proof. reflexivity. Qed.

(** The rest of [init], whatever the playback rate has become while the
    worklet modules were loading. *)
Lemma init_resume_eq (rate : number) (s : Settings) (volumeThresholdDefault : number) :
  exec (init_resume volumeThresholdDefault) (mkController rate s Pending 0 None) =
    mkController (prop s "soundedSpeed") s Resolved 0 (Some (initialNodes s)).
Proof. reflexivity. Qed.

End Initialised.

Section DurationThreshold.

(** C5, as amended.  After [_setStateAccordingToSettings] the detector's
    [durationThreshold] parameter is [getRealtimeMargin] of the new
    [marginBefore] and the new [soundedSpeed], that is
    [marginBefore / soundedSpeed]; a [durationThreshold] property of the
    settings has no influence on it. *)
Theorem durationThreshold_from_marginBefore
    (newSettings : Settings) (oldSettings : option Settings) (c : Controller) (n : Nodes) :
  nodes c = Some n ->
  exists n',
    nodes (exec (_setStateAccordingToSettings newSettings oldSettings) c) = Some n' /\
    durationThreshold n' =
      getRealtimeMargin (prop newSettings "marginBefore") (prop newSettings "soundedSpeed") /\
    durationThreshold n' =
      (prop newSettings "marginBefore" / prop newSettings "soundedSpeed")%js /\
    forall d n'',
      nodes (exec (_setStateAccordingToSettings
                     (<["durationThreshold" := d]> newSettings) oldSettings) c) = Some n'' ->
      durationThreshold n'' = durationThreshold n'.
Proof.
  intros Hn. unfold exec.
  rewrite (_setStateAccordingToSettings_run _ _ _ _ Hn). simpl.
  eexists. split; [reflexivity|]. simpl. repeat split.
  intros d n''. rewrite (_setStateAccordingToSettings_run _ _ _ _ Hn). simpl.
  intros [= <-]. simpl. unfold prop. now rewrite !lookup_insert_ne.
Qed.

Lemma durationThreshold_from_marginBefore_witness :
  exists n',
    nodes (exec (_setStateAccordingToSettings exampleSettings None)
             (initialised (Fin 1) exampleSettings (Fin 0))) = Some n' /\
    durationThreshold n' = Fin (qc 8 35).
Proof.
  destruct (durationThreshold_from_marginBefore exampleSettings None
              (initialised (Fin 1) exampleSettings (Fin 0))
              (initialNodes exampleSettings))
    as (n' & Hn' & Hd & _).
  - reflexivity.
  - exists n'. split; [exact Hn'|]. rewrite Hd. num_eq.
Defined.

(** C5 as stated fails: the parameter is not a function of the settings'
    [durationThreshold] and the active speed.  Two settings objects with the
    same [durationThreshold] (1/5), applied to the same controller and
    leaving the same playback rate, give the thresholds 8/35 and 0, since
    their [marginBefore] differ. *)
Lemma durationThreshold_not_from_setting :
  ~ exists f : number -> number -> number,
      forall (s : Settings) (c : Controller) (n' : Nodes),
        nodes (exec (_setStateAccordingToSettings s None) c) = Some n' ->
        durationThreshold n' =
          f (prop s "durationThreshold")
            (playbackRate (exec (_setStateAccordingToSettings s None) c)).
Proof.
  intros [f Hf].
  pose (c := initialised (Fin 1) exampleSettings (Fin 0)).
  pose (s1 := <["durationThreshold" := Fin (qc 1 5)]> exampleSettings).
  pose (s2 := <["marginBefore" := Fin 0]> s1).
  assert (Hc : nodes c = Some (initialNodes exampleSettings)) by reflexivity.
  pose proof (Hf s1 c _ (_setStateAccordingToSettings_nodes s1 None c _ Hc)) as H1.
  pose proof (Hf s2 c _ (_setStateAccordingToSettings_nodes s2 None c _ Hc)) as H2.
  rewrite (_setStateAccordingToSettings_playbackRate s1 None) in H1.
  rewrite (_setStateAccordingToSettings_playbackRate s2 None) in H2.
  replace (prop s2 "durationThreshold") with (prop s1 "durationThreshold") in H2
    by (vm_compute; reflexivity).
  rewrite <- H1 in H2. clear - H2.
  vm_compute in H2. inversion H2.
Qed.

End DurationThreshold.

Section SettingsChange.

Lemma updateSettings_after_init_witness :
  let c := initialised (Fin 1) exampleSettings (Fin 0) in
  let c' := exec (updateSettings {[ "marginBefore" := Fin (qc 1 5) ]}) c in
  settings c' !! "marginBefore" = Some (Fin (qc 1 5)) /\
  settings c' !! "soundedSpeed" = settings c !! "soundedSpeed".
Proof.
  intros c c'.
  destruct (updateSettings_after_init {[ "marginBefore" := Fin (qc 1 5) ]}
              (initialised (Fin 1) exampleSettings (Fin 0))
              (initialNodes exampleSettings) eq_refl)
    as (Habsent & Hpresent & c1 & n1 & _ & _ & _ & _ & _ & _ & _ & _ & Hrun).
  subst c' c. unfold exec. rewrite Hrun. cbn [snd settings]. split.
  - apply Hpresent. vm_compute. reflexivity.
  - rewrite initialised_eq. cbn [settings]. apply Habsent. vm_compute. reflexivity.
Defined.

(** C10, on a controller that [init] has not set up yet.  The argument
    changes [soundedSpeed] from 7/4 to 2.  On a controller that was only
    constructed, [updateSettings] throws and leaves the controller as it
    was.  Called after [init] has started and before the worklet modules
    are loaded, it sets the playback rate to the new sounded speed, 2, and
    throws: [this.settings] still has the sounded speed 7/4.  When [init]
    goes on, it leaves the state it would have left without the call. *)
Theorem updateSettings_before_init_not_applied :
  let newChangedSettings : Settings := {[ "soundedSpeed" := Fin (qc 2 1) ]} in
  let c0 := constructor (Fin 1) exampleSettings in
  let c1 := exec init_start c0 in
  prop (spread exampleSettings newChangedSettings) "soundedSpeed" = Fin (qc 2 1) /\
  updateSettings newChangedSettings c0 = (TypeError, c0) /\
  updateSettings newChangedSettings c1 =
    (TypeError, mkController (Fin (qc 2 1)) exampleSettings Pending 0 None) /\
  prop (settings (exec (updateSettings newChangedSettings) c1)) "soundedSpeed"
    = Fin (qc 7 4) /\
  exec (init_resume (Fin 0)) (exec (updateSettings newChangedSettings) c1)
    = initialised (Fin 1) exampleSettings (Fin 0).
Proof.
  intros p c0 c1.
  assert (E0 : updateSettings p c0 = (TypeError, c0)).
  { subst c0. unfold constructor.
    rewrite (updateSettings_throws_run p (mkController _ _ _ _ None) eq_refl).
    rewrite (_setStateAccordingToSettings_playbackRate _ (Some _)).
    cbn [playbackRate settings _initPromise awaitingInit].
    replace (Fin 1 === prop exampleSettings "silenceSpeed")%js with false
      by (vm_compute; reflexivity).
    replace (Fin 1 === prop exampleSettings "soundedSpeed")%js with false
      by (vm_compute; reflexivity).
    reflexivity. }
  assert (Ec1 : c1 = mkController (prop exampleSettings "soundedSpeed") exampleSettings
                       Pending 0 None) by reflexivity.
  assert (E1 : updateSettings p c1 =
                 (TypeError, mkController (Fin (qc 2 1)) exampleSettings Pending 0 None)).
  { rewrite Ec1.
    rewrite (updateSettings_throws_run p (mkController _ _ _ _ None) eq_refl).
    rewrite (_setStateAccordingToSettings_playbackRate _ (Some _)).
    cbn [playbackRate settings _initPromise awaitingInit].
    replace (prop exampleSettings "soundedSpeed" === prop exampleSettings "silenceSpeed")%js
      with false by (vm_compute; reflexivity).
    replace (prop exampleSettings "soundedSpeed" === prop exampleSettings "soundedSpeed")%js
      with true by (vm_compute; reflexivity).
    replace (prop (spread exampleSettings p) "soundedSpeed") with (Fin (qc 2 1))
      by (symmetry; num_eq).
    reflexivity. }
  assert (Ex : exec (updateSettings p) c1 =
                 mkController (Fin (qc 2 1)) exampleSettings Pending 0 None)
    by (unfold exec; rewrite E1; reflexivity).
  split; [num_eq|]. split; [exact E0|]. split; [exact E1|].
  rewrite Ex. cbn [settings].
  split; [num_eq|].
  rewrite init_resume_eq, initialised_eq. reflexivity.
Qed.

(** C6, at a change of [marginBefore] from 2/5 to 1/5 on a controller set
    up with the example settings.  The lookahead delay follows the new
    settings (1/5 / max(7/4, 4) = 1/20), and the delay given to the
    stretcher is that of the old settings, 9/70, where the new settings
    give 9/140. *)
Theorem updateSettings_stretcher_delay_from_old_settings :
  let c := initialised (Fin 1) exampleSettings (Fin 0) in
  let c' := exec (updateSettings {[ "marginBefore" := Fin (qc 1 5) ]}) c in
  let new := settings c' in
  exists n',
    nodes c' = Some n' /\
    prop new "marginBefore" = Fin (qc 1 5) /\
    lookaheadDelayTime n' =
      (prop new "marginBefore" / Num.max (prop new "soundedSpeed") (prop new "silenceSpeed"))%js /\
    lookaheadDelayTime n' = Fin (qc 1 20) /\
    head (stretcher n') = Some (SetDelay (Fin (qc 9 70))) /\
    getStretcherSoundedDelay (prop new "marginBefore") (prop new "soundedSpeed")
      (prop new "silenceSpeed") = Fin (qc 9 140) /\
    getStretcherSoundedDelay (prop (settings c) "marginBefore")
      (prop (settings c) "soundedSpeed") (prop (settings c) "silenceSpeed") = Fin (qc 9 70).
Proof.
  intros c c' new. subst new c' c.
  rewrite initialised_eq.
  rewrite (updateSettings_exec _ (mkController _ _ _ _ (Some _)) _ eq_refl).
  cbn [nodes settings].
  eexists. split; [reflexivity|].
  cbn [lookaheadDelayTime stretcher head].
  repeat split; num_eq.
Qed.

(** C7 as stated fails when the two old speeds are equal: the playback rate
    2 equals the old sounded speed, and the call leaves the new silence
    speed 3, not the new sounded speed 3/2. *)
Lemma applySettings_equal_old_speeds :
  let old := equalSpeedsSettings (Fin 0) in
  let new := <["silenceSpeed" := Fin (qc 3 1)]> (<["soundedSpeed" := Fin (qc 3 2)]> old) in
  let c := initialised (Fin 1) old (Fin 0) in
  let c' := exec (_setStateAccordingToSettings new (Some old)) c in
  (playbackRate c === prop old "soundedSpeed")%js = true /\
  playbackRate c' = Fin (qc 3 1) /\
  prop new "soundedSpeed" = Fin (qc 3 2) /\
  playbackRate c' <> prop new "soundedSpeed".
Proof.
  intros old new c c'. subst c' c.
  rewrite initialised_eq.
  rewrite (_setStateAccordingToSettings_playbackRate new (Some old)).
  cbn [playbackRate]. subst new old.
  repeat split; try num_eq.
  vm_compute. intros H. inversion H.
Qed.

End SettingsChange.

(** ** The message handler *)

Section SilenceStart.
Local Open Scope js_scope.

(** What the handler does on a [silenceStart] message. *)
Lemma onmessage_silenceStart_run (eventTime : Time) (c : Controller) (n : Nodes) :
  nodes c = Some n ->
  let s := settings c in
  let stretcherDelayStartValue :=
    getStretcherSoundedDelay (prop s "marginBefore") (prop s "soundedSpeed")
      (prop s "silenceSpeed") in
  let startTime :=
    eventTime + (getTotalDelay (lookaheadDelayTime n) stretcherDelayStartValue
                 - getRealtimeMargin (prop s "marginBefore") (prop s "soundedSpeed")) in
  let endTime :=
    startTime
    + stretcherDelayStartValue / (prop s "silenceSpeed" / prop s "soundedSpeed" - Fin 1) in
  onmessage (mkMessage eventTime silenceStart) c =
    (Ok tt,
     mkController (prop s "silenceSpeed") s (_initPromise c) (awaitingInit c)
       (Some (mkNodes (volumeThreshold n) (durationThreshold n) (portOpen n)
                (lookaheadDelayTime n)
                (Stretch stretcherDelayStartValue (Fin 0) startTime endTime :: stretcher n)
                (srcRoute n)
                (Some (mkStretchInfo eventTime startTime stretcherDelayStartValue
                         endTime (Fin 0)))))).
Proof.
  intros Hn. unfold onmessage. run_M. rewrite Hn. reflexivity.
Qed.

Lemma example_startValue :
  getStretcherSoundedDelay (Fin (qc 2 5)) (Fin (qc 7 4)) (Fin (qc 4 1)) = Fin (qc 9 70).
Proof. num_eq. Qed.

Lemma example_startValue_formula :
  Fin (qc 2 5) / Fin (qc 4 1) * (Fin (qc 4 1) / Fin (qc 7 4)) - Fin (qc 2 5) / Fin (qc 4 1)
  = Fin (qc 9 70).
Proof. num_eq. Qed.

Lemma example_duration :
  Fin (qc 9 70) / (Fin (qc 4 1) / Fin (qc 7 4) - Fin 1) = Fin (qc 1 10).
Proof. num_eq. Qed.

(** C2.  With [soundedSpeed = 7/4], [silenceSpeed = 4] and
    [marginBefore = 2/5], the start value of the ramp scheduled on a
    [silenceStart] message is [getStretcherSoundedDelay(2/5, 7/4, 4)]
    [= (2/5 / 4 * 4 / (7/4)) - 2/5 / 4 = 9/70], the ramp goes down to 0, and
    it lasts [(9/70) / (4 / (7/4) - 1) = 1/10]: its end time is its start
    time plus 1/10. *)
Theorem silenceStart_example_ramp (t l : Qc) (c : Controller) (n : Nodes) :
  nodes c = Some n ->
  lookaheadDelayTime n = Fin l ->
  prop (settings c) "soundedSpeed" = Fin (qc 7 4) ->
  prop (settings c) "silenceSpeed" = Fin (qc 4 1) ->
  prop (settings c) "marginBefore" = Fin (qc 2 5) ->
  getStretcherSoundedDelay (Fin (qc 2 5)) (Fin (qc 7 4)) (Fin (qc 4 1)) = Fin (qc 9 70) /\
  Fin (qc 2 5) / Fin (qc 4 1) * (Fin (qc 4 1) / Fin (qc 7 4)) - Fin (qc 2 5) / Fin (qc 4 1)
    = Fin (qc 9 70) /\
  Fin (qc 9 70) / (Fin (qc 4 1) / Fin (qc 7 4) - Fin 1) = Fin (qc 1 10) /\
  exists (n' : Nodes) (startTime : Qc),
    nodes (exec (onmessage (mkMessage (Fin t) silenceStart)) c) = Some n' /\
    stretcher n' =
      Stretch (Fin (qc 9 70)) (Fin 0) (Fin startTime) (Fin (startTime + qc 1 10))
      :: stretcher n /\
    Fin (startTime + qc 1 10) - Fin startTime = Fin (qc 1 10).
Proof.
  intros Hn Hl Hso Hsi Hm.
  split; [exact example_startValue|].
  split; [exact example_startValue_formula|].
  split; [exact example_duration|].
  unfold exec. rewrite (onmessage_silenceStart_run _ _ _ Hn).
  cbn [snd nodes]. rewrite Hl, Hso, Hsi, Hm, example_startValue, example_duration.
  assert (Hmargin : getRealtimeMargin (Fin (qc 2 5)) (Fin (qc 7 4)) = Fin (qc 8 35))
    by num_eq.
  rewrite Hmargin. unfold getTotalDelay, getDelayFromInputToStretcherOutput.
  cbn [add sub neg].
  eexists. eexists. split; [reflexivity|]. cbn [stretcher].
  split; [reflexivity|].
  f_equal. ring.
Qed.

Lemma silenceStart_example_ramp_witness :
  exists (n' : Nodes) (startTime : Qc),
    nodes (exec (onmessage (mkMessage (Fin (qc 10 1)) silenceStart))
             (initialised (Fin 1) exampleSettings (Fin 0))) = Some n' /\
    stretcher n' =
      Stretch (Fin (qc 9 70)) (Fin 0) (Fin startTime) (Fin (startTime + qc 1 10))
      :: stretcher (initialNodes exampleSettings).
Proof.
  destruct (silenceStart_example_ramp (qc 10 1) (qc 2 5 / qc 4 1)
              (initialised (Fin 1) exampleSettings (Fin 0))
              (initialNodes exampleSettings))
    as (_ & _ & _ & n' & st & Hn' & Hs & _).
  - reflexivity.
  - reflexivity.
  - reflexivity.
  - reflexivity.
  - reflexivity.
  - exists n', st. split; assumption.
Defined.

End SilenceStart.

Section SilenceEnd.
Local Open Scope js_scope.

(** What the handler does on a [silenceEnd] message, once a delay reset
    has been scheduled. *)
Lemma onmessage_silenceEnd_run
    (eventTime : Time) (c : Controller) (n : Nodes) (last : StretchInfo) :
  nodes c = Some n ->
  lastScheduledStretcherDelayReset n = Some last ->
  let s := settings c in
  let lookahead := lookaheadDelayTime n in
  let atSilenceSpeedVideoTime :=
    Num.min ((eventTime - newSpeedStartInputTime last) * prop s "silenceSpeed")
      (prop s "marginBefore") in
  let atSilenceSpeedRealTime := atSilenceSpeedVideoTime / prop s "silenceSpeed" in
  let atSoundedSpeedRealTime :=
    (prop s "marginBefore" - atSilenceSpeedVideoTime) / prop s "soundedSpeed" in
  let marginBeforeStartInputTime :=
    eventTime - atSilenceSpeedRealTime - atSoundedSpeedRealTime in
  let marginBeforeStartOutputTime :=
    getMomentOutputTime marginBeforeStartInputTime lookahead last in
  let stretcherDelay :=
    marginBeforeStartOutputTime - marginBeforeStartInputTime - lookahead in
  let stretcherDelayIncrease :=
    getStretcherDelayChange atSilenceSpeedRealTime
      (prop s "silenceSpeed") (prop s "soundedSpeed") in
  let finalStretcherDelay := stretcherDelay + stretcherDelayIncrease in
  onmessage (mkMessage eventTime silenceEnd) c =
    (Ok tt,
     mkController (prop s "soundedSpeed") s (_initPromise c) (awaitingInit c)
       (Some (mkNodes (volumeThreshold n) (durationThreshold n) (portOpen n)
                (lookaheadDelayTime n)
                (Stretch stretcherDelay finalStretcherDelay
                   (marginBeforeStartOutputTime + atSoundedSpeedRealTime)
                   (eventTime + getTotalDelay lookahead finalStretcherDelay)
                 :: (if marginBeforeStartOutputTime <? endTime last
                     then InterruptLastScheduledStretch stretcherDelay
                            marginBeforeStartOutputTime :: stretcher n
                     else stretcher n))
                (srcRoute n)
                (Some last)))).
Proof.
  intros Hn Hlast. unfold onmessage. run_M. rewrite Hn, Hlast. simpl.
  match goal with
  | |- context [if ?b then (fun _ : Controller => _) else _] => destruct b
  end; simpl; rewrite ?Hlast; reflexivity.
Qed.

(** Before any [silenceStart] message there is no delay reset to read, and
    a [silenceEnd] message makes the handler throw after it has set the
    playback rate. *)
Lemma onmessage_silenceEnd_first (eventTime : Time) (c : Controller) (n : Nodes) :
  nodes c = Some n ->
  lastScheduledStretcherDelayReset n = None ->
  onmessage (mkMessage eventTime silenceEnd) c =
    (TypeError,
     mkController (prop (settings c) "soundedSpeed") (settings c) (_initPromise c)
       (awaitingInit c) (nodes c)).
Proof.
  intros Hn Hlast. unfold onmessage. run_M. rewrite Hn, Hlast. reflexivity.
Qed.

End SilenceEnd.

(** ** No margin *)

Section NoMargin.
Local Open Scope js_scope.

Lemma getStretcherSoundedDelay_margin_0 (a b : Qc) :
  a <> 0%Qc -> b <> 0%Qc ->
  getStretcherSoundedDelay (Fin 0) (Fin a) (Fin b) = Fin 0.
Proof.
  intros Ha Hb.
  unfold getStretcherSoundedDelay, getStretcherDelayChange, getNewSnippetDuration.
  rewrite (div_Fin _ _ Hb). cbn [mul]. rewrite (div_Fin _ _ Ha). cbn [add sub neg].
  apply (f_equal Fin); field; auto.
Qed.

Lemma getStretcherDelayChange_0 (a b : Qc) :
  a <> 0%Qc -> getStretcherDelayChange (Fin 0) (Fin b) (Fin a) = Fin 0.
Proof.
  intros Ha. unfold getStretcherDelayChange, getNewSnippetDuration.
  cbn [mul]. rewrite (div_Fin _ _ Ha). cbn [add sub neg].
  apply (f_equal Fin); field; auto.
Qed.

Lemma div_0_Fin (a : Qc) : a <> 0%Qc -> Fin 0 / Fin a = Fin 0.
Proof. intros Ha. rewrite (div_Fin _ _ Ha). apply (f_equal Fin); field; auto. Qed.

Lemma speedUpBy_minus_1 (a b : Qc) :
  a <> 0%Qc -> a <> b -> Fin 0 / (Fin b / Fin a - Fin 1) = Fin 0.
Proof.
  intros Ha Hab. rewrite (div_Fin _ _ Ha). cbn [add sub neg].
  apply div_0_Fin. intros H. apply Hab.
  assert (E : b = ((b / a + - 1) * a + a)%Qc) by (field; auto).
  rewrite H in E. rewrite E. ring.
Qed.

(** With equal speeds the speed-up is 1, and the duration of the reset is
    [0 / 0]. *)
Lemma speedUpBy_equal_speeds (a : Qc) :
  a <> 0%Qc -> Fin 0 / (Fin a / Fin a - Fin 1) = NaN.
Proof.
  intros Ha. rewrite (div_Fin _ _ Ha). cbn [add sub neg].
  assert (E : (a / a + - 1 = 0)%Qc) by (field; auto).
  rewrite E. reflexivity.
Qed.

(** X29.  With [marginBefore = 0] and two different positive speeds, a
    [silenceStart] message followed by a [silenceEnd] message switches the
    playback rate at each message and schedules two ramps of no height and
    no duration, without interrupting anything. *)
Lemma marginBefore_0_no_stretch (a b l t1 t2 : Qc) (c : Controller) (n : Nodes) :
  nodes c = Some n ->
  lookaheadDelayTime n = Fin l ->
  prop (settings c) "marginBefore" = Fin 0 ->
  prop (settings c) "soundedSpeed" = Fin a ->
  prop (settings c) "silenceSpeed" = Fin b ->
  (0 < a)%Qc -> (0 < b)%Qc -> a <> b -> (t1 <= t2)%Qc ->
  let c1 := exec (onmessage (mkMessage (Fin t1) silenceStart)) c in
  let c2 := exec (onmessage (mkMessage (Fin t2) silenceEnd)) c1 in
  playbackRate c1 = Fin b /\
  playbackRate c2 = Fin a /\
  exists n1 n2,
    nodes c1 = Some n1 /\ nodes c2 = Some n2 /\
    stretcher n1 = Stretch (Fin 0) (Fin 0) (Fin (t1 + l)) (Fin (t1 + l)) :: stretcher n /\
    stretcher n2 = Stretch (Fin 0) (Fin 0) (Fin (t2 + l)) (Fin (t2 + l)) :: stretcher n1.
Proof.
  intros Hn Hl Hm Hso Hsi Ha Hb Hab Ht c1 c2.
  assert (Ha0 : a <> 0%Qc) by (intros ->; now apply (Qclt_not_eq _ _ Ha)).
  assert (Hb0 : b <> 0%Qc) by (intros ->; now apply (Qclt_not_eq _ _ Hb)).
  assert (E1 : c1 =
    mkController (Fin b) (settings c) (_initPromise c) (awaitingInit c)
      (Some (mkNodes (volumeThreshold n) (durationThreshold n) (portOpen n) (Fin l)
               (Stretch (Fin 0) (Fin 0) (Fin (t1 + l)) (Fin (t1 + l)) :: stretcher n)
               (srcRoute n)
               (Some (mkStretchInfo (Fin t1) (Fin (t1 + l)) (Fin 0) (Fin (t1 + l)) (Fin 0)))))).
  { subst c1. unfold exec. rewrite (onmessage_silenceStart_run _ _ _ Hn).
    cbn [snd]. rewrite Hl, Hm, Hso, Hsi.
    rewrite (getStretcherSoundedDelay_margin_0 _ _ Ha0 Hb0), (speedUpBy_minus_1 _ _ Ha0 Hab).
    unfold getTotalDelay, getDelayFromInputToStretcherOutput, getRealtimeMargin.
    rewrite (div_0_Fin _ Ha0). cbn [add sub neg].
    fin_ring. }
  assert (E2 : c2 =
    mkController (Fin a) (settings c) (_initPromise c) (awaitingInit c)
      (Some (mkNodes (volumeThreshold n) (durationThreshold n) (portOpen n) (Fin l)
               (Stretch (Fin 0) (Fin 0) (Fin (t2 + l)) (Fin (t2 + l))
                :: Stretch (Fin 0) (Fin 0) (Fin (t1 + l)) (Fin (t1 + l)) :: stretcher n)
               (srcRoute n)
               (Some (mkStretchInfo (Fin t1) (Fin (t1 + l)) (Fin 0) (Fin (t1 + l)) (Fin 0)))))).
  { subst c2. rewrite E1. unfold exec.
    rewrite (onmessage_silenceEnd_run _ (mkController _ _ _ _ (Some _))
               (mkNodes _ _ _ _ _ _ (Some _)) _ eq_refl eq_refl).
    cbn [snd settings lookaheadDelayTime newSpeedStartInputTime endTime volumeThreshold
         durationThreshold portOpen stretcher srcRoute _initPromise awaitingInit].
    rewrite Hm, Hso, Hsi. cbn [add sub neg mul].
    rewrite min_Fin_0.
    2:{ apply Qcmult_nonneg_nonneg; [|now apply Qclt_le_weak].
        apply -> Qcle_minus_iff. exact Ht. }
    rewrite (div_0_Fin _ Hb0), (getStretcherDelayChange_0 _ _ Ha0).
    cbn [add sub neg].
    replace (0 + - 0)%Qc with 0%Qc by ring.
    rewrite (div_0_Fin _ Ha0). cbn [add sub neg].
    replace (t2 + - 0 + - 0)%Qc with t2 by ring.
    unfold getMomentOutputTime.
    rewrite (getStretcherDelayForInputMoment_after_end t2 l (mkStretchInfo _ _ _ _ _)
               (t1 + l) 0 eq_refl eq_refl).
    2:{ replace (t2 + (l + 0))%Qc with (t2 + l)%Qc by ring.
        now apply Qcplus_le_mono_r. }
    unfold getTotalDelay, getDelayFromInputToStretcherOutput.
    cbn [add sub neg].
    assert (Hlt : (Fin (t2 + (l + 0)) <? Fin (t1 + l)) = false).
    { destruct (Fin (t2 + (l + 0)) <? Fin (t1 + l)) eqn:E; [|reflexivity].
      apply lt_Fin in E. exfalso. apply (Qclt_not_le _ _ E).
      replace (t2 + (l + 0))%Qc with (t2 + l)%Qc by ring.
      now apply Qcplus_le_mono_r. }
    rewrite Hlt. fin_ring. }
  rewrite E2, E1. cbn [playbackRate nodes].
  repeat split. eexists. eexists. repeat split.
Qed.

End NoMargin.

Section EqualSpeeds.
Local Open Scope js_scope.

Lemma deliver_open (msg : Message) (c : Controller) (n : Nodes) :
  nodes c = Some n -> portOpen n = true -> deliver msg c = onmessage msg c.
Proof. intros Hn Hp. unfold deliver. now rewrite Hn, Hp. Qed.

Lemma deliver_closed (msg : Message) (c : Controller) (n : Nodes) :
  nodes c = Some n -> portOpen n = false -> deliver msg c = (Ok tt, c).
Proof. intros Hn Hp. unfold deliver. now rewrite Hn, Hp. Qed.

(** C3, at equal speeds.  The controller is set up with [marginBefore = 0]
    and [soundedSpeed = silenceSpeed = 2]; a [silenceStart] message at time
    10 is followed by a [silenceEnd] message at time 12.  The playback rate
    is set at each message, and the start and end value of the first ramp
    are 0, but its duration is [0 / (2 / 2 - 1) = 0 / 0]: the ramp is
    scheduled from time 10 to time [NaN], and the ramp of the [silenceEnd]
    message is scheduled with [NaN] for its values and its times. *)
Theorem silenceStart_equal_speeds_endTime_NaN :
  let c := initialised (Fin 1) (equalSpeedsSettings (Fin 0)) (Fin 0) in
  let c1 := exec (deliver (mkMessage (Fin (qc 10 1)) silenceStart)) c in
  let c2 := exec (deliver (mkMessage (Fin (qc 12 1)) silenceEnd)) c1 in
  prop (settings c) "marginBefore" = Fin 0 /\
  playbackRate c1 = prop (settings c) "silenceSpeed" /\
  playbackRate c2 = prop (settings c) "soundedSpeed" /\
  exists n1 n2,
    nodes c1 = Some n1 /\ nodes c2 = Some n2 /\
    head (stretcher n1) = Some (Stretch (Fin 0) (Fin 0) (Fin (qc 10 1)) NaN) /\
    head (stretcher n2) = Some (Stretch NaN NaN NaN NaN).
Proof.
  intros c c1 c2. subst c2 c1 c.
  split; [num_eq|]. split; [num_eq|]. split; [num_eq|].
  eexists. eexists.
  split; [vm_compute; reflexivity|].
  split; [vm_compute; reflexivity|].
  split; num_eq.
Qed.

End EqualSpeeds.

(** ** Tear-down *)

Section Destroy.

Lemma destroy_after_init (rate : number) (s : Settings) (volumeThresholdDefault : number) :
  exec destroy (initialised rate s volumeThresholdDefault) =
    mkController (Fin 1) s Resolved 0
      (Some (mkNodes
               (volumeThreshold (initialNodes s))
               (durationThreshold (initialNodes s))
               false
               (lookaheadDelayTime (initialNodes s))
               (DestroyStretcher :: stretcher (initialNodes s))
               ToDestination
               None)).
Proof. reflexivity. Qed.

Lemma init_start_destroy (rate : number) (s : Settings) :
  exec (init_start ;; destroy) (constructor rate s) =
    mkController (prop s "soundedSpeed") s Pending 1 None.
Proof. reflexivity. Qed.

Lemma init_resume_runs_destroy (rate : number) (s : Settings) (volumeThresholdDefault : number) :
  exec (init_resume volumeThresholdDefault) (mkController rate s Pending 1 None) =
    mkController (Fin 1) s Resolved 0
      (Some (mkNodes
               (volumeThreshold (initialNodes s))
               (durationThreshold (initialNodes s))
               false
               (lookaheadDelayTime (initialNodes s))
               (DestroyStretcher :: stretcher (initialNodes s))
               ToDestination
               None)).
Proof. reflexivity. Qed.

(** C8, as amended.  [destroy] waits for [init]: called while the promise
    is pending it changes nothing but the list of suspended calls, and its
    body runs when [init] has finished; called after [init] it runs at
    once.  In both cases it ends by setting the playback rate to 1,
    whatever the rate was before [init]. *)
Theorem destroy_sets_playbackRate_1
    (rate : number) (s : Settings) (volumeThresholdDefault : number) :
  let c0 := constructor rate s in
  playbackRate c0 = rate /\
  playbackRate (exec destroy (initialised rate s volumeThresholdDefault)) = Fin 1 /\
  let c1 := exec (init_start ;; destroy) c0 in
  _initPromise c1 = Pending /\
  awaitingInit c1 = 1%nat /\
  nodes c1 = None /\
  playbackRate c1 = prop s "soundedSpeed" /\
  playbackRate (exec (init_resume volumeThresholdDefault) c1) = Fin 1.
Proof.
  intros c0. split; [reflexivity|].
  rewrite destroy_after_init. split; [reflexivity|].
  intros c1. subst c1 c0.
  rewrite init_start_destroy, init_resume_runs_destroy.
  repeat split.
Qed.

(** C8 as stated fails: on an element playing at rate 2 before [init], the
    rate after [init] and [destroy] is 1. *)
Lemma destroy_does_not_restore_rate :
  let c0 := constructor (Fin (qc 2 1)) exampleSettings in
  let c := exec destroy (initialised (Fin (qc 2 1)) exampleSettings (Fin 0)) in
  playbackRate c0 = Fin (qc 2 1) /\
  playbackRate c = Fin 1 /\
  playbackRate c <> playbackRate c0.
Proof.
  intros c0 c. subst c c0.
  rewrite destroy_after_init. cbn [playbackRate constructor].
  repeat split. vm_compute. intros H. inversion H.
Qed.

End Destroy.

(** * Further properties *)

(** ** Rationals *)

Section QcFacts.

Lemma Qc_pos_neq_0 (a : Qc) : 0 < a -> a <> 0.
Proof. intros H ->. now apply (Qclt_not_eq _ _ H). Qed.

Lemma Qc_div_le (m x b : Qc) : 0 < b -> m <= x * b -> m / b <= x.
Proof.
  intros Hb H. apply (Qcmult_lt_0_le_reg_r _ _ b Hb).
  replace (m / b * b) with m by (field; now apply Qc_pos_neq_0). exact H.
Qed.

Lemma Qc_div_lt (m x b : Qc) : 0 < b -> x * b < m -> x < m / b.
Proof.
  intros Hb H. apply (Qcmult_lt_mono_pos_r _ _ b Hb).
  replace (m / b * b) with m by (field; now apply Qc_pos_neq_0). exact H.
Qed.

Lemma Qc_div_pos (x b : Qc) : 0 < b -> 0 < x -> 0 < x / b.
Proof.
  intros Hb Hx. apply Qc_div_lt; [exact Hb|]. now replace (0 * b) with 0 by ring.
Qed.

End QcFacts.

Section NumOrder.
Local Open Scope js_scope.

Lemma ge_Fin_false (a b : Qc) : (Fin a >=? Fin b) = false <-> (a < b)%Qc.
Proof.
  unfold ge; simpl. rewrite Qclt_alt.
  destruct (a ?= b)%Qc; split; congruence.
Qed.

Lemma lt_Fin_false (a b : Qc) : (Fin a <? Fin b) = false <-> (b <= a)%Qc.
Proof.
  unfold lt; simpl. rewrite (Qcge_alt a b).
  destruct (a ?= b)%Qc; split; congruence.
Qed.

Lemma max_Fin_le (a b : Qc) : (a <= b)%Qc -> Num.max (Fin a) (Fin b) = Fin b.
Proof.
  intros H. unfold Num.max; simpl.
  destruct (a ?= b)%Qc eqn:E; try reflexivity.
  - apply Qceq_alt in E. now subst.
  - apply Qcgt_alt in E. exfalso. now apply (Qcle_not_lt _ _ H).
Qed.

Lemma min_Fin_l (a b : Qc) : (a <= b)%Qc -> Num.min (Fin a) (Fin b) = Fin a.
Proof.
  intros H. unfold Num.min; simpl.
  destruct (a ?= b)%Qc eqn:E; try reflexivity.
  apply Qcgt_alt in E. exfalso. now apply (Qcle_not_lt _ _ H).
Qed.

Lemma min_Fin_r (a b : Qc) : (b <= a)%Qc -> Num.min (Fin a) (Fin b) = Fin b.
Proof.
  intros H. unfold Num.min; simpl.
  destruct (a ?= b)%Qc eqn:E; try reflexivity.
  - apply Qceq_alt in E. now subst.
  - apply Qclt_alt in E. exfalso. now apply (Qclt_not_le _ _ E).
Qed.

End NumOrder.

(** ** The delay helpers *)

Section DelayHelpers.
Local Open Scope js_scope.

Lemma getRealtimeMargin_Fin (m a : Qc) :
  (0 < a)%Qc -> getRealtimeMargin (Fin m) (Fin a) = Fin (m / a).
Proof. intros Ha. apply div_Fin. now apply Qc_pos_neq_0. Qed.

Lemma getNewSnippetDuration_Fin (d a b : Qc) :
  (0 < b)%Qc -> getNewSnippetDuration (Fin d) (Fin a) (Fin b) = Fin (d * a / b).
Proof.
  intros Hb. unfold getNewSnippetDuration. cbn [mul].
  apply div_Fin. now apply Qc_pos_neq_0.
Qed.

Lemma getStretcherDelayChange_Fin (d a b : Qc) :
  (0 < b)%Qc -> getStretcherDelayChange (Fin d) (Fin a) (Fin b) = Fin (d * a / b - d).
Proof.
  intros Hb. unfold getStretcherDelayChange.
  rewrite (getNewSnippetDuration_Fin _ _ _ Hb). reflexivity.
Qed.

Lemma getStretcherSoundedDelay_Fin (m a b : Qc) :
  (0 < a)%Qc -> (0 < b)%Qc ->
  getStretcherSoundedDelay (Fin m) (Fin a) (Fin b) = Fin (m / a - m / b).
Proof.
  intros Ha Hb. unfold getStretcherSoundedDelay.
  rewrite (div_Fin m b) by now apply Qc_pos_neq_0.
  rewrite (getStretcherDelayChange_Fin _ _ _ Ha). cbn [add].
  apply (f_equal Fin). field. split; now apply Qc_pos_neq_0.
Qed.

(** X1.  For positive speeds, the delay the stretcher has at sounded speed
    is the margin in real time at sounded speed minus the margin in real
    time at silence speed. *)
Theorem getStretcherSoundedDelay_margins (m a b : Qc) :
  (0 < a)%Qc -> (0 < b)%Qc ->
  getStretcherSoundedDelay (Fin m) (Fin a) (Fin b) =
    getRealtimeMargin (Fin m) (Fin a) - getRealtimeMargin (Fin m) (Fin b).
Proof.
  intros Ha Hb.
  rewrite (getStretcherSoundedDelay_Fin _ _ _ Ha Hb),
    (getRealtimeMargin_Fin _ _ Ha), (getRealtimeMargin_Fin _ _ Hb).
  reflexivity.
Qed.

Lemma getStretcherSoundedDelay_margins_witness :
  getStretcherSoundedDelay (Fin (qc 2 5)) (Fin (qc 7 4)) (Fin (qc 4 1)) =
    getRealtimeMargin (Fin (qc 2 5)) (Fin (qc 7 4))
    - getRealtimeMargin (Fin (qc 2 5)) (Fin (qc 4 1)).
Proof. apply getStretcherSoundedDelay_margins; reflexivity. Defined.

(** X2.  When the silence speed is not below the (positive) sounded speed,
    the lookahead delay and the stretcher's sounded delay add up to the
    margin in real time at sounded speed. *)
Theorem lookahead_and_sounded_delay (m a b : Qc) :
  (0 < a)%Qc -> (a <= b)%Qc ->
  getDelayFromInputToStretcherOutput
    (getNewLookaheadDelay (Fin m) (Fin a) (Fin b))
    (getStretcherSoundedDelay (Fin m) (Fin a) (Fin b))
  = getRealtimeMargin (Fin m) (Fin a).
Proof.
  intros Ha Hab.
  assert (Hb : (0 < b)%Qc) by (eapply Qclt_le_trans; eauto).
  unfold getNewLookaheadDelay. rewrite (max_Fin_le _ _ Hab).
  rewrite (getStretcherSoundedDelay_Fin _ _ _ Ha Hb), (getRealtimeMargin_Fin _ _ Ha).
  rewrite (div_Fin m b) by now apply Qc_pos_neq_0.
  unfold getDelayFromInputToStretcherOutput. cbn [add].
  apply (f_equal Fin). field. split; now apply Qc_pos_neq_0.
Qed.

Lemma lookahead_and_sounded_delay_witness :
  getDelayFromInputToStretcherOutput
    (getNewLookaheadDelay (Fin (qc 2 5)) (Fin (qc 7 4)) (Fin (qc 4 1)))
    (getStretcherSoundedDelay (Fin (qc 2 5)) (Fin (qc 7 4)) (Fin (qc 4 1)))
  = getRealtimeMargin (Fin (qc 2 5)) (Fin (qc 7 4)).
Proof.
  apply lookahead_and_sounded_delay; [reflexivity | vm_compute; discriminate].
Defined.

(** X3.  Changing a snippet's speed and changing it back gives the
    duration it had, and the two changes of the stretcher delay cancel. *)
Theorem getNewSnippetDuration_round_trip (d a b : Qc) :
  (0 < a)%Qc -> (0 < b)%Qc ->
  let d' := getNewSnippetDuration (Fin d) (Fin a) (Fin b) in
  getNewSnippetDuration d' (Fin b) (Fin a) = Fin d /\
  getStretcherDelayChange (Fin d) (Fin a) (Fin b) + getStretcherDelayChange d' (Fin b) (Fin a)
  = Fin 0.
Proof.
  intros Ha Hb d'. subst d'.
  rewrite (getNewSnippetDuration_Fin _ _ _ Hb), (getNewSnippetDuration_Fin _ _ _ Ha),
    (getStretcherDelayChange_Fin _ _ _ Hb), (getStretcherDelayChange_Fin _ _ _ Ha).
  cbn [add]. split; apply (f_equal Fin); field; split; now apply Qc_pos_neq_0.
Qed.

Lemma getNewSnippetDuration_round_trip_witness :
  getNewSnippetDuration
    (getNewSnippetDuration (Fin (qc 1 10)) (Fin (qc 4 1)) (Fin (qc 7 4)))
    (Fin (qc 7 4)) (Fin (qc 4 1)) = Fin (qc 1 10).
Proof. apply (getNewSnippetDuration_round_trip (qc 1 10) (qc 4 1) (qc 7 4)); reflexivity. Defined.

End DelayHelpers.

(** ** The time mapping inside a ramp *)

Section TimeMapperRamp.
Local Open Scope js_scope.

(** The value returned for a moment whose output falls before the end of
    a ramp of positive duration during which the video goes forwards. *)
Lemma getStretcherDelayForInputMoment_in_ramp (n0 : Time) (t l st sv et ev : Qc) :
  (0 < et - st)%Qc -> (0 < (et - st) + (sv - ev))%Qc -> (t + (l + ev) < et)%Qc ->
  getStretcherDelayForInputMoment (Fin t) (Fin l)
    (mkStretchInfo n0 (Fin st) (Fin sv) (Fin et) (Fin ev))
  = Fin (st + (t + (l + sv) - st) * (et - st) / ((et - st) + (sv - ev))).
Proof.
  intros HD HX Hlt.
  pose proof (Qc_pos_neq_0 _ HD) as HD0. pose proof (Qc_pos_neq_0 _ HX) as HX0.
  unfold getStretcherDelayForInputMoment, getDelayFromInputToStretcherOutput,
    getStretchSpeedChangeMultiplier.
  cbn [startTime startValue endTime endValue add sub neg].
  apply ge_Fin_false in Hlt. rewrite Hlt.
  unfold Qcminus in *.
  rewrite (div_Fin _ (et + - st)%Qc HD0).
  rewrite div_Fin.
  2:{ intros H. apply HX0.
      replace (et + - st + (sv + - ev))%Qc
        with ((et + - st + (sv + - ev)) / (et + - st) * (et + - st))%Qc at 1
        by (field; auto).
      rewrite H. ring. }
  cbn [add]. apply (f_equal Fin). field. split; auto.
Qed.

Lemma getStretcherDelayForInputMoment_past_ramp (n0 : Time) (t l st sv et ev : Qc) :
  (et <= t + (l + ev))%Qc ->
  getStretcherDelayForInputMoment (Fin t) (Fin l)
    (mkStretchInfo n0 (Fin st) (Fin sv) (Fin et) (Fin ev))
  = Fin (t + (l + ev)).
Proof. intros H. now apply getStretcherDelayForInputMoment_after_end with (e := et). Qed.

(** X5.  Inside a ramp the returned output time [T] is the time at which
    the sample of [momentTime] leaves the delays: [T] minus the lookahead
    delay minus the stretcher delay at [T], taken on the straight line from
    [(startTime, startValue)] to [(endTime, endValue)], is [momentTime]. *)
Theorem getStretcherDelayForInputMoment_delay_equation
    (n0 : Time) (t l st sv et ev : Qc) :
  (0 < et - st)%Qc -> (0 < (et - st) + (sv - ev))%Qc -> (t + (l + ev) < et)%Qc ->
  exists T : Qc,
    getStretcherDelayForInputMoment (Fin t) (Fin l)
      (mkStretchInfo n0 (Fin st) (Fin sv) (Fin et) (Fin ev)) = Fin T /\
    (T - l - (sv + (ev - sv) * ((T - st) / (et - st))) = t)%Qc.
Proof.
  intros HD HX Hlt. eexists. split.
  - now apply getStretcherDelayForInputMoment_in_ramp.
  - pose proof (Qc_pos_neq_0 _ HD). pose proof (Qc_pos_neq_0 _ HX).
    field. split; auto.
Qed.

Lemma getStretcherDelayForInputMoment_delay_equation_witness :
  exists T : Qc,
    getStretcherDelayForInputMoment (Fin (qc 999 100)) (Fin (qc 1 10))
      (mkStretchInfo (Fin (qc 10 1)) (Fin (qc 10 1)) (Fin (qc 9 70))
         (Fin (qc 101 10)) (Fin 0)) = Fin T /\
    (T - qc 1 10 - (qc 9 70 + (0 - qc 9 70) * ((T - qc 10 1) / (qc 101 10 - qc 10 1)))
     = qc 999 100)%Qc.
Proof.
  apply getStretcherDelayForInputMoment_delay_equation; reflexivity.
Defined.

End TimeMapperRamp.

Section TimeMapperEdges.
Local Open Scope js_scope.

(** X8.  A schedule of positive duration that keeps the delay where it is
    ([startValue = endValue]) delays every moment by the lookahead plus
    that value, on both sides of the schedule's end. *)
Theorem getStretcherDelayForInputMoment_flat (n0 : Time) (t l st et v : Qc) :
  (0 < et - st)%Qc ->
  getStretcherDelayForInputMoment (Fin t) (Fin l)
    (mkStretchInfo n0 (Fin st) (Fin v) (Fin et) (Fin v))
  = Fin (t + l + v).
Proof.
  intros HD.
  assert (HX : (0 < et - st + (v - v))%Qc)
    by (now replace (et - st + (v - v))%Qc with (et - st)%Qc by ring).
  destruct (Qclt_le_dec (t + (l + v)) et) as [H | H].
  - rewrite (getStretcherDelayForInputMoment_in_ramp _ _ _ _ _ _ _ HD HX H).
    apply (f_equal Fin). pose proof (Qc_pos_neq_0 _ HD). field.
    now replace (et - st + (v - v))%Qc with (et - st)%Qc by ring.
  - rewrite (getStretcherDelayForInputMoment_past_ramp _ _ _ _ _ _ _ H).
    apply (f_equal Fin). ring.
Qed.

Lemma getStretcherDelayForInputMoment_flat_witness :
  getStretcherDelayForInputMoment (Fin (qc 5 1)) (Fin (qc 1 10))
    (mkStretchInfo (Fin 0) (Fin (qc 10 1)) (Fin (qc 1 4)) (Fin (qc 11 1)) (Fin (qc 1 4)))
  = Fin (qc 5 1 + qc 1 10 + qc 1 4).
Proof. apply getStretcherDelayForInputMoment_flat. reflexivity. Defined.

(** X9.  A schedule of no duration is a jump of the delay.  When the test
    [momentTime + stretchEndTotalDelay >= stretch.endTime] holds, the
    moment is delayed by the lookahead plus the final delay.  When it does
    not, the speed-up is a division by zero: the moment is mapped to the
    time of the jump when the jump has a height, and to [NaN] when the
    schedule has no height either (the speed-up is then [0 / 0]). *)
Theorem getStretcherDelayForInputMoment_jump (n0 : Time) (t l e sv ev : Qc) :
  getStretcherDelayForInputMoment (Fin t) (Fin l)
    (mkStretchInfo n0 (Fin e) (Fin sv) (Fin e) (Fin ev))
  = if Fin t + getDelayFromInputToStretcherOutput (Fin l) (Fin ev) >=? Fin e
    then Fin t + getDelayFromInputToStretcherOutput (Fin l) (Fin ev)
    else if decide (sv = ev) then NaN else Fin e.
Proof.
  unfold getStretcherDelayForInputMoment, getDelayFromInputToStretcherOutput,
    getStretchSpeedChangeMultiplier.
  cbn [startTime startValue endTime endValue add sub neg].
  destruct (Fin (t + (l + ev)) >=? Fin e); [reflexivity|].
  replace (e + - e)%Qc with 0%Qc by ring.
  replace (0 + (sv + - ev))%Qc with (sv - ev)%Qc by ring.
  cbn [div]. replace (is_zero 0) with true by reflexivity.
  destruct (decide (sv = ev)) as [-> | Hne].
  - replace (ev - ev)%Qc with 0%Qc by ring. reflexivity.
  - destruct (sv - ev ?= 0)%Qc eqn:E.
    + exfalso. apply Hne. apply Qceq_alt in E.
      replace sv with (sv - ev + ev)%Qc by ring. rewrite E. ring.
    + cbn. apply (f_equal Fin). ring.
    + cbn. apply (f_equal Fin). ring.
Qed.

End TimeMapperEdges.

(** ** The size of the speed correction *)

Section TransformSpeedBound.
Local Open Scope js_scope.

Lemma band_edges :
  biggestNonNormalBelow1 = Fin (qc 998 1000) /\
  smallestNonNormalAbove1 = Fin (qc 1002 1000).
Proof. split; num_eq. Qed.

(** X10.  [transformSpeed] moves a speed by less than the width of the
    band, 0.004: the speed it returns for a rational speed [s] is a
    rational [s'] with [-0.004 < s' - s < 0.004]. *)
Theorem transformSpeed_close (s : Qc) :
  exists s' : Qc,
    transformSpeed (Fin s) = Fin s' /\
    (- qc 4 1000 < s' - s)%Qc /\ (s' - s < qc 4 1000)%Qc.
Proof.
  destruct band_edges as [Hlo Hhi].
  destruct (inBand (Fin s)) eqn:Hin.
  - assert (Hb := Hin). unfold inBand in Hb. rewrite Hlo, Hhi in Hb.
    apply andb_true_iff in Hb as [H1 H2].
    apply lt_Fin in H1, H2.
    rewrite (transformSpeed_inside _ Hin).
    destruct (_ <? _); [rewrite Hlo | rewrite Hhi]; eexists; (split; [reflexivity|]);
      clear - H1 H2; split; unfold qc in *; qc_to_q; lra.
  - rewrite (transformSpeed_outside _ Hin). exists s. split; [reflexivity|].
    split; unfold qc; qc_to_q; lra.
Qed.

End TransformSpeedBound.

(** ** What the handler and [updateSettings] leave alone *)

Section Frames.
Local Open Scope js_scope.

Lemma onmessage_no_nodes (msg : Message) (c : Controller) :
  nodes c = None ->
  onmessage msg c =
    (TypeError,
     mkController
       (prop (settings c)
          (match type msg with silenceEnd => "soundedSpeed" | silenceStart => "silenceSpeed" end))
       (settings c) (_initPromise c) (awaitingInit c) None).
Proof.
  intros Hn. destruct msg as [t []]; unfold onmessage; run_M; rewrite Hn; reflexivity.
Qed.

(** X11.  The message handler changes the playback rate, the calls made on
    the stretcher and the last scheduled reset, and nothing else: the
    settings, the pending [init], the detector's two thresholds, the
    lookahead delay, the port and the routing of the source stay as they
    were, also when the handler throws. *)
Theorem onmessage_frame (msg : Message) (c : Controller) :
  let c' := exec (onmessage msg) c in
  settings c' = settings c /\
  _initPromise c' = _initPromise c /\
  awaitingInit c' = awaitingInit c /\
  match nodes c, nodes c' with
  | Some n, Some n' =>
      volumeThreshold n' = volumeThreshold n /\
      durationThreshold n' = durationThreshold n /\
      lookaheadDelayTime n' = lookaheadDelayTime n /\
      portOpen n' = portOpen n /\
      srcRoute n' = srcRoute n
  | None, None => True
  | _, _ => False
  end.
Proof.
  intros c'. subst c'. unfold exec.
  destruct (nodes c) as [n|] eqn:Hn.
  - destruct msg as [t []].
    + rewrite (onmessage_silenceStart_run _ _ _ Hn). cbn. repeat split.
    + destruct (lastScheduledStretcherDelayReset n) as [last|] eqn:Hlast.
      * rewrite (onmessage_silenceEnd_run _ _ _ _ Hn Hlast). cbn. repeat split.
      * rewrite (onmessage_silenceEnd_first _ _ _ Hn Hlast). cbn. rewrite Hn.
        repeat split.
  - rewrite (onmessage_no_nodes _ _ Hn). cbn. repeat split.
Qed.

(** X12.  [updateSettings] does not touch a ramp: on a controller that
    [init] has set up it makes one call on the stretcher, [setDelay], and
    keeps the last scheduled reset, the port and the routing of the
    source. *)
Theorem updateSettings_keeps_schedule
    (newChangedSettings : Settings) (c : Controller) (n : Nodes) :
  nodes c = Some n ->
  exists (n' : Nodes) (delay : Time),
    nodes (exec (updateSettings newChangedSettings) c) = Some n' /\
    stretcher n' = SetDelay delay :: stretcher n /\
    lastScheduledStretcherDelayReset n' = lastScheduledStretcherDelayReset n /\
    portOpen n' = portOpen n /\
    srcRoute n' = srcRoute n.
Proof.
  intros Hn. rewrite (updateSettings_exec _ _ _ Hn). cbn [nodes].
  eexists. eexists. split; [reflexivity|]. cbn. repeat split.
Qed.

Lemma updateSettings_keeps_schedule_witness :
  exists (n' : Nodes) (delay : Time),
    nodes (exec (updateSettings {[ "marginBefore" := Fin (qc 1 5) ]})
             (initialised (Fin 1) exampleSettings (Fin 0))) = Some n' /\
    stretcher n' = SetDelay delay :: stretcher (initialNodes exampleSettings).
Proof.
  destruct (updateSettings_keeps_schedule {[ "marginBefore" := Fin (qc 1 5) ]}
              (initialised (Fin 1) exampleSettings (Fin 0))
              (initialNodes exampleSettings) eq_refl)
    as (n' & delay & Hn' & Hs & _).
  exists n', delay. split; assumption.
Defined.

End Frames.

(** ** Calls out of order *)

Section OutOfOrder.

(** X13.  A [silenceEnd] message that arrives before any [silenceStart]
    message finds no scheduled reset: the handler throws, and the
    controller is as [init] left it (the playback rate is set to the
    sounded speed, which it already was). *)
Theorem silenceEnd_first_throws
    (rate : number) (s : Settings) (volumeThresholdDefault : number) (eventTime : Time) :
  deliver (mkMessage eventTime silenceEnd) (initialised rate s volumeThresholdDefault) =
    (TypeError, initialised rate s volumeThresholdDefault).
Proof.
  rewrite initialised_eq.
  rewrite (deliver_open _ (mkController _ _ _ _ (Some _)) (initialNodes s) eq_refl eq_refl).
  rewrite (onmessage_silenceEnd_first _ (mkController _ _ _ _ (Some _)) (initialNodes s)
             eq_refl eq_refl).
  reflexivity.
Qed.

(** X14.  [destroy] closes the port: after it, on a controller that [init]
    had set up, a message from the detector changes nothing. *)
Theorem deliver_after_destroy (msg : Message) (c : Controller) (n : Nodes) :
  nodes c = Some n -> _initPromise c <> Pending ->
  deliver msg (exec destroy c) = (Ok tt, exec destroy c).
Proof.
  intros Hn Hp.
  assert (E : exec destroy c =
    mkController (Fin 1) (settings c) (_initPromise c) (awaitingInit c)
      (Some (mkNodes (volumeThreshold n) (durationThreshold n) false (lookaheadDelayTime n)
               (DestroyStretcher :: stretcher n) ToDestination
               (lastScheduledStretcherDelayReset n)))).
  { assert (Hb : destroy c = destroy_body c).
    { unfold destroy, bind, this. destruct (_initPromise c); congruence. }
    unfold exec. rewrite Hb. unfold destroy_body. run_M. rewrite Hn. reflexivity. }
  rewrite E. now apply (deliver_closed _ (mkController _ _ _ _ (Some _)) _ eq_refl).
Qed.

Lemma deliver_after_destroy_witness :
  deliver (mkMessage (Fin (qc 10 1)) silenceStart)
    (exec destroy (initialised (Fin 1) exampleSettings (Fin 0)))
  = (Ok tt, exec destroy (initialised (Fin 1) exampleSettings (Fin 0))).
Proof.
  apply (deliver_after_destroy _ _ (initialNodes exampleSettings)).
  - reflexivity.
  - discriminate.
Defined.

(** X15.  [destroy] on a controller whose nodes do not exist and whose
    [init] is not pending -- [init] was never called -- throws before it
    gets to the playback rate: the controller, and with it the rate, stay
    as they were. *)
Theorem destroy_without_init (c : Controller) :
  nodes c = None -> _initPromise c <> Pending ->
  destroy c = (TypeError, c).
Proof.
  intros Hn Hp.
  assert (Hb : destroy c = destroy_body c).
  { unfold destroy, bind, this. destruct (_initPromise c); congruence. }
  rewrite Hb. unfold destroy_body. run_M. now rewrite Hn.
Qed.

Lemma destroy_without_init_witness :
  destroy (constructor (Fin (qc 2 1)) exampleSettings)
  = (TypeError, constructor (Fin (qc 2 1)) exampleSettings).
Proof. apply destroy_without_init; [reflexivity | discriminate]. Defined.

Lemma updateSettings_before_init_witness :
  fst (updateSettings {[ "marginBefore" := Fin (qc 1 5) ]}
         (constructor (Fin 1) exampleSettings)) = TypeError /\
  settings (exec (updateSettings {[ "marginBefore" := Fin (qc 1 5) ]})
              (constructor (Fin 1) exampleSettings)) = exampleSettings.
Proof. apply updateSettings_before_init. reflexivity. Defined.

End OutOfOrder.

(** ** The two ramps of a silence *)

Section Ramps.
Local Open Scope js_scope.

Lemma getNewLookaheadDelay_Fin (m a b : Qc) :
  (0 < a)%Qc -> (a <= b)%Qc ->
  getNewLookaheadDelay (Fin m) (Fin a) (Fin b) = Fin (m / b).
Proof.
  intros Ha Hab. unfold getNewLookaheadDelay. rewrite (max_Fin_le _ _ Hab).
  apply div_Fin. apply Qc_pos_neq_0. eapply Qclt_le_trans; eauto.
Qed.

(** The state after a [silenceStart] message, for settings with a sounded
    speed below the silence speed and the lookahead delay that belongs to
    them. *)
Lemma silenceStart_state (m a b t : Qc) (c : Controller) (n : Nodes) :
  nodes c = Some n ->
  prop (settings c) "marginBefore" = Fin m ->
  prop (settings c) "soundedSpeed" = Fin a ->
  prop (settings c) "silenceSpeed" = Fin b ->
  (0 < a)%Qc -> (a < b)%Qc ->
  lookaheadDelayTime n = getNewLookaheadDelay (Fin m) (Fin a) (Fin b) ->
  exec (onmessage (mkMessage (Fin t) silenceStart)) c =
    mkController (Fin b) (settings c) (_initPromise c) (awaitingInit c)
      (Some (mkNodes (volumeThreshold n) (durationThreshold n) (portOpen n) (Fin (m / b))
               (Stretch (Fin (m / a - m / b)) (Fin 0) (Fin t) (Fin (t + m / b))
                :: stretcher n)
               (srcRoute n)
               (Some (mkStretchInfo (Fin t) (Fin t) (Fin (m / a - m / b))
                        (Fin (t + m / b)) (Fin 0))))).
Proof.
  intros Hn Hm Hso Hsi Ha Hab Hl.
  assert (Hb : (0 < b)%Qc) by (eapply Qclt_trans; eauto).
  pose proof (Qc_pos_neq_0 _ Ha) as Ha0. pose proof (Qc_pos_neq_0 _ Hb) as Hb0.
  rewrite (getNewLookaheadDelay_Fin _ _ _ Ha (Qclt_le_weak _ _ Hab)) in Hl.
  unfold exec. rewrite (onmessage_silenceStart_run _ _ _ Hn).
  cbn [snd]. rewrite Hl, Hm, Hso, Hsi.
  rewrite (getStretcherSoundedDelay_Fin _ _ _ Ha Hb), (getRealtimeMargin_Fin _ _ Ha).
  unfold getTotalDelay, getDelayFromInputToStretcherOutput.
  rewrite (div_Fin b a Ha0). cbn [add sub neg].
  assert (Hd : (b / a + - 1)%Qc <> 0%Qc).
  { intros H. apply (Qclt_not_eq _ _ Hab).
    replace b with ((b / a + - 1) * a + a)%Qc by (field; auto).
    rewrite H. ring. }
  rewrite (div_Fin _ _ Hd).
  cbn [add].
  assert (E1 : (t + (m / b + (m / a - m / b) + - (m / a)) = t)%Qc) by ring.
  assert (E2 : ((m / a - m / b) / (b / a + - 1) = m / b)%Qc).
  { replace (m / a - m / b)%Qc with (m / b * (b / a + - 1))%Qc by (field; auto).
    now apply Qcdiv_mult_l. }
  rewrite E1, E2. reflexivity.
Qed.

(** X16.  With a positive sounded speed below the silence speed and the
    lookahead delay of these settings, a [silenceStart] message at time
    [t] sets the playback rate to the silence speed and schedules the reset
    of the stretcher delay from [getStretcherSoundedDelay] down to 0,
    starting at [t] and lasting the margin in real time at silence speed. *)
Theorem silenceStart_ramp (m a b t : Qc) (c : Controller) (n : Nodes) :
  nodes c = Some n ->
  prop (settings c) "marginBefore" = Fin m ->
  prop (settings c) "soundedSpeed" = Fin a ->
  prop (settings c) "silenceSpeed" = Fin b ->
  (0 < a)%Qc -> (a < b)%Qc ->
  lookaheadDelayTime n = getNewLookaheadDelay (Fin m) (Fin a) (Fin b) ->
  let c' := exec (onmessage (mkMessage (Fin t) silenceStart)) c in
  playbackRate c' = Fin b /\
  exists n',
    nodes c' = Some n' /\
    stretcher n' =
      Stretch (getStretcherSoundedDelay (Fin m) (Fin a) (Fin b)) (Fin 0)
        (Fin t) (Fin t + getRealtimeMargin (Fin m) (Fin b))
      :: stretcher n /\
    lastScheduledStretcherDelayReset n' =
      Some (mkStretchInfo (Fin t) (Fin t) (getStretcherSoundedDelay (Fin m) (Fin a) (Fin b))
              (Fin t + getRealtimeMargin (Fin m) (Fin b)) (Fin 0)).
Proof.
  intros Hn Hm Hso Hsi Ha Hab Hl c'. subst c'.
  assert (Hb : (0 < b)%Qc) by (eapply Qclt_trans; eauto).
  rewrite (silenceStart_state m a b t c n Hn Hm Hso Hsi Ha Hab Hl).
  rewrite (getStretcherSoundedDelay_Fin _ _ _ Ha Hb), (getRealtimeMargin_Fin _ _ Hb).
  cbn. split; [reflexivity|]. eexists. repeat split.
Qed.

Lemma silenceStart_ramp_witness :
  playbackRate (exec (onmessage (mkMessage (Fin (qc 10 1)) silenceStart))
                  (initialised (Fin 1) exampleSettings (Fin 0))) = Fin (qc 4 1).
Proof.
  apply (silenceStart_ramp (qc 2 5) (qc 7 4) (qc 4 1) (qc 10 1)
           (initialised (Fin 1) exampleSettings (Fin 0)) (initialNodes exampleSettings));
    reflexivity.
Defined.

End Ramps.

Section RampsAtSilenceEnd.
Local Open Scope js_scope.

(** The [silenceEnd] handler on the state that a [silenceStart] message at
    [t1] has left. *)
Lemma silenceEnd_after_silenceStart_run (m a b t1 t2 : Qc) (c : Controller) (n : Nodes) :
  prop (settings c) "marginBefore" = Fin m ->
  prop (settings c) "soundedSpeed" = Fin a ->
  prop (settings c) "silenceSpeed" = Fin b ->
  (0 < a)%Qc -> (0 < b)%Qc ->
  let last := mkStretchInfo (Fin t1) (Fin t1) (Fin (m / a - m / b)) (Fin (t1 + m / b)) (Fin 0) in
  let c1 :=
    mkController (Fin b) (settings c) (_initPromise c) (awaitingInit c)
      (Some (mkNodes (volumeThreshold n) (durationThreshold n) (portOpen n) (Fin (m / b))
               (Stretch (Fin (m / a - m / b)) (Fin 0) (Fin t1) (Fin (t1 + m / b))
                :: stretcher n)
               (srcRoute n) (Some last))) in
  let x := Num.min (Fin ((t2 - t1) * b)) (Fin m) in
  forall (xq : Qc), x = Fin xq ->
  let inputTime := (t2 - xq / b - (m - xq) / a)%Qc in
  let outputTime := getStretcherDelayForInputMoment (Fin inputTime) (Fin (m / b)) last in
  forall (T : Qc), outputTime = Fin T ->
  exec (onmessage (mkMessage (Fin t2) silenceEnd)) c1 =
    mkController (Fin a) (settings c) (_initPromise c) (awaitingInit c)
      (Some (mkNodes (volumeThreshold n) (durationThreshold n) (portOpen n) (Fin (m / b))
               (Stretch (Fin (T - inputTime - m / b))
                  (Fin (T - inputTime - m / b + (xq / b * b / a - xq / b)))
                  (Fin (T + (m - xq) / a))
                  (Fin (t2 + (m / b + (T - inputTime - m / b + (xq / b * b / a - xq / b)))))
                :: (if Fin T <? Fin (t1 + m / b)
                    then InterruptLastScheduledStretch (Fin (T - inputTime - m / b)) (Fin T)
                         :: Stretch (Fin (m / a - m / b)) (Fin 0) (Fin t1) (Fin (t1 + m / b))
                         :: stretcher n
                    else Stretch (Fin (m / a - m / b)) (Fin 0) (Fin t1) (Fin (t1 + m / b))
                         :: stretcher n))
               (srcRoute n) (Some last))).
Proof.
  intros Hm Hso Hsi Ha Hb last c1 x xq Hx inputTime outputTime T HT.
  pose proof (Qc_pos_neq_0 _ Ha) as Ha0. pose proof (Qc_pos_neq_0 _ Hb) as Hb0.
  subst c1 outputTime inputTime x last. unfold Qcminus in Hx, HT. unfold exec.
  rewrite (onmessage_silenceEnd_run _ (mkController _ _ _ _ (Some _))
             (mkNodes _ _ _ _ _ _ (Some _)) _ eq_refl eq_refl).
  cbn [snd settings lookaheadDelayTime newSpeedStartInputTime endTime volumeThreshold
       durationThreshold portOpen stretcher srcRoute _initPromise awaitingInit].
  rewrite Hm, Hso, Hsi. cbn [add sub neg mul].
  rewrite Hx.
  rewrite (div_Fin xq b Hb0). cbn [add sub neg].
  rewrite (div_Fin _ a Ha0). cbn [add sub neg].
  unfold getMomentOutputTime. unfold Qcminus in *.
  rewrite HT.
  rewrite (getStretcherDelayChange_Fin _ _ _ Ha).
  unfold getTotalDelay, getDelayFromInputToStretcherOutput.
  cbn [add sub neg]. reflexivity.
Qed.

End RampsAtSilenceEnd.

Section SilenceEndRamps.
Local Open Scope js_scope.

(** The two cases of the handler's test in the exact arithmetic of the
    model.  A silence that lasted at least the margin (in video time, at
    silence speed): the reset of the stretcher delay is over when the
    margin before the sound reaches the output, and the handler schedules a
    ramp from 0. *)
Lemma silenceEnd_calls_long (m a b t1 t2 : Qc) (c : Controller) (n : Nodes) :
  nodes c = Some n ->
  prop (settings c) "marginBefore" = Fin m ->
  prop (settings c) "soundedSpeed" = Fin a ->
  prop (settings c) "silenceSpeed" = Fin b ->
  (0 < a)%Qc -> (a < b)%Qc ->
  lookaheadDelayTime n = getNewLookaheadDelay (Fin m) (Fin a) (Fin b) ->
  (m <= (t2 - t1) * b)%Qc ->
  let c1 := exec (onmessage (mkMessage (Fin t1) silenceStart)) c in
  let c2 := exec (onmessage (mkMessage (Fin t2) silenceEnd)) c1 in
  playbackRate c2 = Fin a /\
  exists n1 n2,
    nodes c1 = Some n1 /\ nodes c2 = Some n2 /\
    stretcher n2 =
      Stretch (Fin 0) (getStretcherSoundedDelay (Fin m) (Fin a) (Fin b))
        (Fin t2) (Fin t2 + getRealtimeMargin (Fin m) (Fin a))
      :: stretcher n1.
Proof.
  intros Hn Hm Hso Hsi Ha Hab Hl Hlong c1 c2.
  assert (Hb : (0 < b)%Qc) by (eapply Qclt_trans; eauto).
  pose proof (Qc_pos_neq_0 _ Ha) as Ha0. pose proof (Qc_pos_neq_0 _ Hb) as Hb0.
  assert (Hq : (m / b <= t2 - t1)%Qc) by now apply Qc_div_le.
  subst c2 c1.
  rewrite (silenceStart_state m a b t1 c n Hn Hm Hso Hsi Ha Hab Hl).
  rewrite (silenceEnd_after_silenceStart_run m a b t1 t2 c n Hm Hso Hsi Ha Hb m
             (min_Fin_r _ _ Hlong) (t2 - m / b - (m - m) / a + (m / b + 0))).
  2:{ apply getStretcherDelayForInputMoment_past_ramp.
      replace (t2 - m / b - (m - m) / a + (m / b + 0))%Qc with t2 by (field; auto).
      clear - Hq. set (q := (m / b)%Qc) in *. qc_to_q. lra. }
  rewrite (getStretcherSoundedDelay_Fin _ _ _ Ha Hb), (getRealtimeMargin_Fin _ _ Ha).
  cbn [playbackRate nodes add]. split; [reflexivity|].
  eexists. eexists. split; [reflexivity|]. split; [reflexivity|].
  cbn [stretcher].
  replace (Fin (t2 - m / b - (m - m) / a + (m / b + 0)) <? Fin (t1 + m / b)) with false.
  2:{ symmetry. apply lt_Fin_false.
      replace (t2 - m / b - (m - m) / a + (m / b + 0))%Qc with t2 by (field; auto).
      clear - Hq. set (q := (m / b)%Qc) in *. qc_to_q. lra. }
  f_equal. f_equal; apply (f_equal Fin); field; auto.
Qed.

(** A silence shorter than the margin, again in exact arithmetic: the
    message arrives while the reset scheduled at [t1] is still going down,
    and the handler interrupts it at the delay it has reached. *)
Lemma silenceEnd_calls_short (m a b t1 t2 : Qc) (c : Controller) (n : Nodes) :
  nodes c = Some n ->
  prop (settings c) "marginBefore" = Fin m ->
  prop (settings c) "soundedSpeed" = Fin a ->
  prop (settings c) "silenceSpeed" = Fin b ->
  (0 < a)%Qc -> (a < b)%Qc ->
  lookaheadDelayTime n = getNewLookaheadDelay (Fin m) (Fin a) (Fin b) ->
  (t1 <= t2)%Qc -> ((t2 - t1) * b < m)%Qc ->
  let c1 := exec (onmessage (mkMessage (Fin t1) silenceStart)) c in
  let c2 := exec (onmessage (mkMessage (Fin t2) silenceEnd)) c1 in
  let reached := ((m / a - m / b) + (0 - (m / a - m / b)) * ((t2 - t1) / (m / b)))%Qc in
  playbackRate c2 = Fin a /\
  exists n1 n2,
    nodes c1 = Some n1 /\ nodes c2 = Some n2 /\
    stretcher n2 =
      Stretch (Fin reached) (getStretcherSoundedDelay (Fin m) (Fin a) (Fin b))
        (Fin (t2 + (m - (t2 - t1) * b) / a))
        (Fin t2 + getRealtimeMargin (Fin m) (Fin a))
      :: InterruptLastScheduledStretch (Fin reached) (Fin t2)
      :: stretcher n1.
Proof.
  intros Hn Hm Hso Hsi Ha Hab Hl Ht Hshort c1 c2 reached.
  assert (Hb : (0 < b)%Qc) by (eapply Qclt_trans; eauto).
  pose proof (Qc_pos_neq_0 _ Ha) as Ha0. pose proof (Qc_pos_neq_0 _ Hb) as Hb0.
  assert (Hx0 : (0 <= (t2 - t1) * b)%Qc).
  { apply Qcmult_nonneg_nonneg; [|now apply Qclt_le_weak].
    unfold Qcminus. now apply -> Qcle_minus_iff. }
  assert (Hmpos : (0 < m)%Qc) by (eapply Qcle_lt_trans; eauto).
  pose proof (Qc_pos_neq_0 _ Hmpos) as Hm0.
  assert (Hq : (t2 - t1 < m / b)%Qc) by now apply Qc_div_lt.
  assert (Hrest : (0 < (m - (t2 - t1) * b) / a)%Qc).
  { apply Qc_div_pos; [exact Ha|]. unfold Qcminus. now apply -> Qclt_minus_iff. }
  set (x := ((t2 - t1) * b)%Qc) in *.
  set (inputTime := (t2 - x / b - (m - x) / a)%Qc).
  assert (Ein : inputTime = (t1 - (m - x) / a)%Qc) by (subst inputTime x; field; auto).
  set (T := (t1 + (inputTime + (m / b + (m / a - m / b)) - t1) * (t1 + m / b - t1)
                  / (t1 + m / b - t1 + (m / a - m / b - 0)))%Qc).
  assert (ET : T = t2).
  { subst T. rewrite Ein.
    replace (t1 + m / b - t1 + (m / a - m / b - 0))%Qc with (m / a)%Qc by ring.
    replace (t1 + m / b - t1)%Qc with (m / b)%Qc by ring.
    subst x. field. repeat split; auto. }
  subst c2 c1.
  rewrite (silenceStart_state m a b t1 c n Hn Hm Hso Hsi Ha Hab Hl).
  rewrite (silenceEnd_after_silenceStart_run m a b t1 t2 c n Hm Hso Hsi Ha Hb x
             (min_Fin_l _ _ (Qclt_le_weak _ _ Hshort)) T).
  2:{ apply getStretcherDelayForInputMoment_in_ramp.
      - replace (t1 + m / b - t1)%Qc with (m / b)%Qc by ring. now apply Qc_div_pos.
      - replace (t1 + m / b - t1 + (m / a - m / b - 0))%Qc with (m / a)%Qc by ring.
        now apply Qc_div_pos.
      - fold inputTime. rewrite Ein.
        clear - Hrest. set (r := ((m - x) / a)%Qc) in *. set (q := (m / b)%Qc).
        qc_to_q. lra. }
  fold inputTime. rewrite ET.
  rewrite (getStretcherSoundedDelay_Fin _ _ _ Ha Hb), (getRealtimeMargin_Fin _ _ Ha).
  cbn [playbackRate nodes add]. split; [reflexivity|].
  eexists. eexists. split; [reflexivity|]. split; [reflexivity|].
  cbn [stretcher].
  replace (Fin t2 <? Fin (t1 + m / b)) with true.
  2:{ symmetry. apply lt_Fin. clear - Hq. set (q := (m / b)%Qc) in *. qc_to_q. lra. }
  assert (Er : (t2 - inputTime - m / b = reached)%Qc).
  { subst reached. rewrite Ein. subst x. field. repeat split; auto. }
  rewrite Er.
  f_equal.
  f_equal; try reflexivity; apply (f_equal Fin); subst reached x; field; repeat split; auto.
Qed.

(** X17.  The ramp scheduled when a silence ends.  After a [silenceStart]
    message at [t1], for a positive sounded speed below the silence speed
    and the lookahead delay of these settings, a [silenceEnd] message at
    [t2] sets the playback rate to the sounded speed and schedules one
    ramp.  With [rest] the part of the margin that was not played at silence
    speed ([marginBefore] minus the smaller of [marginBefore] and the length
    of the silence in video time), the ramp goes from the stretcher delay
    that belongs to [rest] up to [getStretcherSoundedDelay] of the whole
    margin, whether the silence was long or short; it starts [rest] in real
    time at sounded speed after [t2] and ends the whole margin in real time
    at sounded speed after [t2].  The only other call the handler may make
    is the interruption of the reset, at [t2] and at the delay the ramp
    starts from. *)
Theorem silenceEnd_ramp (m a b t1 t2 : Qc) (c : Controller) (n : Nodes) :
  nodes c = Some n ->
  prop (settings c) "marginBefore" = Fin m ->
  prop (settings c) "soundedSpeed" = Fin a ->
  prop (settings c) "silenceSpeed" = Fin b ->
  (0 < a)%Qc -> (a < b)%Qc ->
  lookaheadDelayTime n = getNewLookaheadDelay (Fin m) (Fin a) (Fin b) ->
  (t1 <= t2)%Qc ->
  let c1 := exec (onmessage (mkMessage (Fin t1) silenceStart)) c in
  let c2 := exec (onmessage (mkMessage (Fin t2) silenceEnd)) c1 in
  let rest := Fin m - Num.min ((Fin t2 - Fin t1) * Fin b) (Fin m) in
  let from := getStretcherSoundedDelay rest (Fin a) (Fin b) in
  let ramp :=
    Stretch from (getStretcherSoundedDelay (Fin m) (Fin a) (Fin b))
      (Fin t2 + getRealtimeMargin rest (Fin a))
      (Fin t2 + getRealtimeMargin (Fin m) (Fin a)) in
  playbackRate c2 = Fin a /\
  exists n1 n2,
    nodes c1 = Some n1 /\ nodes c2 = Some n2 /\
    (stretcher n2 = ramp :: stretcher n1 \/
     stretcher n2 = ramp :: InterruptLastScheduledStretch from (Fin t2) :: stretcher n1).
Proof.
  intros Hn Hm Hso Hsi Ha Hab Hl Ht c1 c2 rest from ramp.
  assert (Hb : (0 < b)%Qc) by (eapply Qclt_trans; eauto).
  pose proof (Qc_pos_neq_0 _ Ha) as Ha0. pose proof (Qc_pos_neq_0 _ Hb) as Hb0.
  destruct (Qclt_le_dec ((t2 - t1) * b) m) as [Hshort | Hlong].
  - destruct (silenceEnd_calls_short m a b t1 t2 c n Hn Hm Hso Hsi Ha Hab Hl Ht Hshort)
      as (Hr & n1 & n2 & H1 & H2 & Hs).
    split; [exact Hr|]. exists n1, n2. split; [exact H1|]. split; [exact H2|].
    right. rewrite Hs. subst ramp from rest.
    cbn [add sub neg mul]. unfold Qcminus in *.
    rewrite (min_Fin_l _ _ (Qclt_le_weak _ _ Hshort)). cbn [add neg].
    rewrite !(getStretcherSoundedDelay_Fin _ _ _ Ha Hb), !(getRealtimeMargin_Fin _ _ Ha).
    cbn [add].
    assert (Hmpos : (0 < m)%Qc).
    { eapply Qcle_lt_trans; [|exact Hshort].
      apply Qcmult_nonneg_nonneg; [|now apply Qclt_le_weak].
      now apply -> Qcle_minus_iff. }
    pose proof (Qc_pos_neq_0 _ Hmpos) as Hm0.
    assert (Er : (m / a + - (m / b) + (0 + - (m / a + - (m / b))) * ((t2 + - t1) / (m / b))
                  = (m + - ((t2 + - t1) * b)) / a + - ((m + - ((t2 + - t1) * b)) / b))%Qc)
      by (field; repeat split; auto).
    unfold Qcminus. rewrite Er. reflexivity.
  - destruct (silenceEnd_calls_long m a b t1 t2 c n Hn Hm Hso Hsi Ha Hab Hl Hlong)
      as (Hr & n1 & n2 & H1 & H2 & Hs).
    split; [exact Hr|]. exists n1, n2. split; [exact H1|]. split; [exact H2|].
    left. rewrite Hs. subst ramp from rest.
    cbn [add sub neg mul]. unfold Qcminus in *.
    rewrite (min_Fin_r _ _ Hlong). cbn [add neg].
    rewrite !(getStretcherSoundedDelay_Fin _ _ _ Ha Hb), !(getRealtimeMargin_Fin _ _ Ha).
    cbn [add].
    f_equal. f_equal; try reflexivity; apply (f_equal Fin); field; auto.
Qed.

Lemma silenceEnd_ramp_witness :
  playbackRate
    (exec (onmessage (mkMessage (Fin (qc 1005 100)) silenceEnd))
       (exec (onmessage (mkMessage (Fin (qc 10 1)) silenceStart))
          (initialised (Fin 1) exampleSettings (Fin 0)))) = Fin (qc 7 4).
Proof.
  apply (silenceEnd_ramp (qc 2 5) (qc 7 4) (qc 4 1) (qc 10 1) (qc 1005 100)
           (initialised (Fin 1) exampleSettings (Fin 0)) (initialNodes exampleSettings));
    try reflexivity.
  vm_compute; discriminate.
Defined.

End SilenceEndRamps.

(** ** The playback rate over a run of calls *)

Section RateInvariant.
Local Open Scope js_scope.

Lemma strict_eq_refl (x : number) : x <> NaN -> (x === x) = true.
Proof.
  destruct x; unfold strict_eq; simpl; try congruence.
  intros _. now replace (q ?= q)%Qc with Eq by (symmetry; now apply Qceq_alt).
Qed.

Lemma prop_spread (s p : Settings) (k : string) :
  prop (spread s p) k = match p !! k with Some v => v | None => prop s k end.
Proof.
  unfold prop. destruct (p !! k) as [v|] eqn:E.
  - now rewrite (spread_lookup_present _ _ _ _ E).
  - now rewrite (spread_lookup_absent _ _ _ E).
Qed.

Lemma onmessage_playbackRate (msg : Message) (c : Controller) :
  playbackRate (exec (onmessage msg) c) =
    prop (settings c)
      (match type msg with silenceEnd => "soundedSpeed" | silenceStart => "silenceSpeed" end).
Proof.
  unfold exec. destruct (nodes c) as [n|] eqn:Hn.
  - destruct msg as [t []].
    + now rewrite (onmessage_silenceStart_run _ _ _ Hn).
    + destruct (lastScheduledStretcherDelayReset n) as [last|] eqn:Hlast.
      * now rewrite (onmessage_silenceEnd_run _ _ _ _ Hn Hlast).
      * now rewrite (onmessage_silenceEnd_first _ _ _ Hn Hlast).
  - now rewrite (onmessage_no_nodes _ _ Hn).
Qed.

Lemma call_keeps_rate_configured (e : Call) (c : Controller) :
  is_Some (nodes c) -> definedSpeeds (settings c) -> rateIsConfigured c ->
  keepsSpeedsDefined e ->
  let c' := exec (call e) c in
  is_Some (nodes c') /\ definedSpeeds (settings c') /\ rateIsConfigured c'.
Proof.
  intros [n Hn] [Hso Hsi] Hrate He c'. subst c'. destruct e as [p | msg]; cbn [call].
  - destruct He as [Hpso Hpsi].
    rewrite (updateSettings_exec _ _ _ Hn). cbn [nodes settings].
    split; [eauto|]. split.
    + split; rewrite prop_spread.
      * destruct (p !! "soundedSpeed") as [v|]; [congruence | exact Hso].
      * destruct (p !! "silenceSpeed") as [v|]; [congruence | exact Hsi].
    + unfold rateIsConfigured. cbn [playbackRate settings].
      rewrite (_setStateAccordingToSettings_playbackRate _ (Some (settings c))).
      destruct Hrate as [Hr | Hr]; rewrite Hr.
      * destruct (_ === prop (settings c) "silenceSpeed"); [now right|].
        rewrite (strict_eq_refl _ Hso). now left.
      * rewrite (strict_eq_refl _ Hsi). now right.
  - pose proof (onmessage_frame msg c) as (Hs & _ & _ & Hnodes).
    pose proof (onmessage_playbackRate msg c) as Hr.
    unfold deliver, exec in *. rewrite Hn in *. destruct (portOpen n).
    + destruct (onmessage msg c) as [o c']. cbn [snd] in *.
      destruct (nodes c'); [|contradiction].
      split; [eauto|]. rewrite Hs. split; [now split|].
      unfold rateIsConfigured. rewrite Hr, Hs. destruct (type msg); auto.
    + cbn [snd]. rewrite Hn. split; [eauto|]. split; [now split | exact Hrate].
Qed.

(** X19.  Once [init] has run on settings whose two speeds are numbers,
    the playback rate is one of the two speeds of the current settings
    after every run of messages and settings updates that do not set a
    speed to [NaN], whether or not a handler threw on the way. *)
Theorem calls_keep_rate_configured
    (es : list Call) (rate : number) (s : Settings) (volumeThresholdDefault : number) :
  definedSpeeds s -> Forall keepsSpeedsDefined es ->
  rateIsConfigured (calls es (initialised rate s volumeThresholdDefault)).
Proof.
  intros Hs Hes.
  assert (H0 : is_Some (nodes (initialised rate s volumeThresholdDefault)) /\
               definedSpeeds (settings (initialised rate s volumeThresholdDefault)) /\
               rateIsConfigured (initialised rate s volumeThresholdDefault)).
  { rewrite initialised_eq. cbn. split; [eauto|]. split; [exact Hs|]. now left. }
  revert H0. generalize (initialised rate s volumeThresholdDefault).
  induction Hes as [| e es He Hes IH]; intros c (Hn & Hd & Hr); cbn [calls].
  - exact Hr.
  - apply IH. now apply call_keeps_rate_configured.
Qed.

Lemma calls_keep_rate_configured_witness :
  rateIsConfigured
    (calls [CallDeliver (mkMessage (Fin (qc 10 1)) silenceStart);
            CallUpdateSettings {[ "silenceSpeed" := Fin (qc 3 1) ]};
            CallDeliver (mkMessage (Fin (qc 11 1)) silenceEnd)]
       (initialised (Fin 1) exampleSettings (Fin 0))).
Proof.
  apply calls_keep_rate_configured.
  - split; vm_compute; discriminate.
  - repeat constructor; vm_compute; discriminate.
Defined.

End RateInvariant.

(** ** Successive updates *)

Section UpdateTwice.

(** X20.  Two calls of [updateSettings] leave the same settings, the same
    detector thresholds and the same lookahead delay as one call with the
    two changes merged (the later one winning). *)
Theorem updateSettings_twice (p1 p2 : Settings) (c : Controller) (n : Nodes) :
  nodes c = Some n ->
  let c2 := exec (updateSettings p2) (exec (updateSettings p1) c) in
  let c12 := exec (updateSettings (spread p1 p2)) c in
  settings c2 = settings c12 /\
  exists n2 n12,
    nodes c2 = Some n2 /\ nodes c12 = Some n12 /\
    volumeThreshold n2 = volumeThreshold n12 /\
    durationThreshold n2 = durationThreshold n12 /\
    lookaheadDelayTime n2 = lookaheadDelayTime n12.
Proof.
  intros Hn c2 c12. subst c2 c12.
  rewrite (updateSettings_exec p1 _ _ Hn).
  rewrite (updateSettings_exec p2 (mkController _ _ _ _ (Some _)) _ eq_refl).
  rewrite (updateSettings_exec (spread p1 p2) _ _ Hn).
  cbn [settings nodes].
  assert (E : spread (spread (settings c) p1) p2 = spread (settings c) (spread p1 p2)).
  { unfold spread. now rewrite (assoc_L (∪)). }
  rewrite E. split; [reflexivity|].
  eexists. eexists. split; [reflexivity|]. split; [reflexivity|].
  cbn. repeat split.
Qed.

Lemma updateSettings_twice_witness :
  settings (exec (updateSettings {[ "silenceSpeed" := Fin (qc 3 1) ]})
              (exec (updateSettings {[ "marginBefore" := Fin (qc 1 5) ]})
                 (initialised (Fin 1) exampleSettings (Fin 0))))
  = settings (exec (updateSettings
                      (spread {[ "marginBefore" := Fin (qc 1 5) ]}
                              {[ "silenceSpeed" := Fin (qc 3 1) ]}))
                (initialised (Fin 1) exampleSettings (Fin 0))).
Proof.
  apply (updateSettings_twice _ _ _ (initialNodes exampleSettings)). reflexivity.
Defined.

End UpdateTwice.

Section NoMarginWitness.

Lemma marginBefore_0_no_stretch_witness :
  playbackRate
    (exec (onmessage (mkMessage (Fin (qc 10 1)) silenceStart))
       (initialised (Fin 1) (<["marginBefore" := Fin 0]> exampleSettings) (Fin 0)))
  = Fin (qc 4 1).
Proof.
  destruct (marginBefore_0_no_stretch (qc 7 4) (qc 4 1) (0 / qc 4 1) (qc 10 1) (qc 12 1)
           (initialised (Fin 1) (<["marginBefore" := Fin 0]> exampleSettings) (Fin 0))
           (initialNodes (<["marginBefore" := Fin 0]> exampleSettings)))
    as (H & _).
  - vm_compute; reflexivity.
  - vm_compute; reflexivity.
  - vm_compute; reflexivity.
  - vm_compute; reflexivity.
  - vm_compute; reflexivity.
  - reflexivity.
  - reflexivity.
  - vm_compute. intros H. inversion H.
  - vm_compute. discriminate.
  - exact H.
Defined.

End NoMarginWitness.

(** ** The migrations *)

Section MigrationFacts.
Import Migrations.

Lemma spread_lookup {A} (a b : gmap string A) (k : string) :
  spread a b !! k = match b !! k with Some v => Some v | None => a !! k end.
Proof.
  destruct (b !! k) as [v|] eqn:E.
  - now apply spread_lookup_present.
  - now apply spread_lookup_absent.
Qed.

Lemma fixZeroSoundedSpeed_lookup (defaultStep : jsval) (local : Storage) (k : string) :
  fixZeroSoundedSpeed defaultStep local !! k =
    if decide (k = "soundedSpeed") then
      if isZero (local !! "soundedSpeed")
      then Some (nullish (local !! "popupSoundedSpeedStep") defaultStep)
      else local !! "soundedSpeed"
    else if decide (k = "popupSoundedSpeedMin") then
      if isZero (local !! "popupSoundedSpeedMin")
      then Some (nullish (local !! "popupSoundedSpeedStep") defaultStep)
      else local !! "popupSoundedSpeedMin"
    else local !! k.
Proof.
  unfold fixZeroSoundedSpeed. cbv zeta. rewrite spread_lookup.
  destruct (isZero (local !! "popupSoundedSpeedMin")),
           (isZero (local !! "soundedSpeed"));
    repeat case_decide; subst; simplify_map_eq; reflexivity.
Qed.

(** X21.  The fix for a sounded speed of 0 leaves no 0 behind: when the
    step it uses (the stored [popupSoundedSpeedStep], or the default one
    when none is stored or [null] is) is not 0, neither [soundedSpeed] nor
    [popupSoundedSpeedMin] is 0 afterwards; every other key keeps its
    value, and so do these two when they were not 0. *)
Theorem fixZeroSoundedSpeed_no_zero (defaultStep : jsval) (local : Storage) :
  isZero (Some (nullish (local !! "popupSoundedSpeedStep") defaultStep)) = false ->
  let local' := fixZeroSoundedSpeed defaultStep local in
  isZero (local' !! "soundedSpeed") = false /\
  isZero (local' !! "popupSoundedSpeedMin") = false /\
  (forall k, isZero (local !! k) = false -> local' !! k = local !! k).
Proof.
  intros Hstep local'. subst local'. repeat split.
  - rewrite fixZeroSoundedSpeed_lookup. simpl.
    destruct (isZero (local !! "soundedSpeed")) eqn:E; [exact Hstep | exact E].
  - rewrite fixZeroSoundedSpeed_lookup. simpl.
    destruct (isZero (local !! "popupSoundedSpeedMin")) eqn:E; [exact Hstep | exact E].
  - intros k Hk. rewrite fixZeroSoundedSpeed_lookup.
    repeat case_decide; subst; try rewrite Hk; reflexivity.
Qed.

Lemma fixZeroSoundedSpeed_no_zero_witness :
  isZero (fixZeroSoundedSpeed (VNum (Fin (qc 1 4)))
            {[ "soundedSpeed" := VNum (Fin 0) ]} !! "soundedSpeed") = false.
Proof.
  apply (fixZeroSoundedSpeed_no_zero (VNum (Fin (qc 1 4)))
           {[ "soundedSpeed" := VNum (Fin 0) ]}).
  vm_compute. reflexivity.
Defined.

(** X22.  Running the fix a second time changes nothing. *)
Theorem fixZeroSoundedSpeed_idempotent (defaultStep : jsval) (local : Storage) :
  fixZeroSoundedSpeed defaultStep (fixZeroSoundedSpeed defaultStep local) =
  fixZeroSoundedSpeed defaultStep local.
Proof.
  apply map_eq. intros k.
  rewrite (fixZeroSoundedSpeed_lookup _ (fixZeroSoundedSpeed defaultStep local)).
  rewrite !fixZeroSoundedSpeed_lookup. simpl.
  repeat case_decide; subst; try reflexivity.
  - destruct (isZero (local !! "soundedSpeed")) eqn:E.
    + destruct (isZero (Some _)); reflexivity.
    + now rewrite E.
  - destruct (isZero (local !! "popupSoundedSpeedMin")) eqn:E.
    + destruct (isZero (Some _)); reflexivity.
    + now rewrite E.
Qed.

(** X23.  The migration of [popupChartLengthInSeconds] does nothing when
    the key is not stored; a stored number is doubled, every other key
    keeps its value, and a second run doubles again. *)
Theorem doublePopupChartLength_spec (stringToNumber : string -> number) (local : Storage) :
  let local' := doublePopupChartLength stringToNumber local in
  (local !! "popupChartLengthInSeconds" = None -> local' = local) /\
  (forall x, local !! "popupChartLengthInSeconds" = Some (VNum x) ->
     local' !! "popupChartLengthInSeconds" = Some (VNum (x * Fin 2)%js) /\
     doublePopupChartLength stringToNumber local' !! "popupChartLengthInSeconds"
       = Some (VNum (x * Fin 2 * Fin 2)%js)) /\
  (forall k, k <> "popupChartLengthInSeconds" -> local' !! k = local !! k).
Proof.
  intros local'. subst local'. unfold doublePopupChartLength. repeat split.
  - now intros ->.
  - rewrite H. cbv zeta. rewrite spread_lookup. now simplify_map_eq.
  - rewrite H. cbv zeta. rewrite !spread_lookup. simplify_map_eq.
    rewrite spread_lookup. now simplify_map_eq.
  - intros k Hk. destruct (local !! "popupChartLengthInSeconds"); [|reflexivity].
    cbv zeta. rewrite spread_lookup. now simplify_map_eq.
Qed.

Lemma migrateFrom1_25_1_lookup (local : Storage) (k : string) :
  migrateFrom1_25_1 local !! k =
    match local !! "updateSoundedSpeedWheneverItChangesOnWebsite" with
    | None => local !! k
    | Some v =>
        if decide (k = "updateSoundedSpeedWheneverItChangesOnWebsite") then None
        else if decide (k = "onPlaybackRateChangeFromOtherScripts") then
          Some (if truthy v then VStr "updateSoundedSpeed" else VStr "prevent")
        else local !! k
    end.
Proof.
  unfold migrateFrom1_25_1.
  destruct (local !! "updateSoundedSpeedWheneverItChangesOnWebsite") as [v|]; [|reflexivity].
  cbv zeta. repeat case_decide; subst.
  - now rewrite lookup_delete_eq.
  - rewrite lookup_delete_ne by done. rewrite spread_lookup. now simplify_map_eq.
  - rewrite lookup_delete_ne by done. rewrite spread_lookup. now simplify_map_eq.
Qed.

(** X24.  After [migrateFrom1_25_1] the old key
    [updateSoundedSpeedWheneverItChangesOnWebsite] is not stored.  When it
    was stored, [onPlaybackRateChangeFromOtherScripts] is
    ['updateSoundedSpeed'] for a truthy value and ['prevent'] otherwise;
    every other key keeps its value; the order of the two storage calls
    does not matter; and a second run changes nothing. *)
Theorem migrateFrom1_25_1_spec (local : Storage) :
  let local' := migrateFrom1_25_1 local in
  local' !! "updateSoundedSpeedWheneverItChangesOnWebsite" = None /\
  (forall v, local !! "updateSoundedSpeedWheneverItChangesOnWebsite" = Some v ->
     local' !! "onPlaybackRateChangeFromOtherScripts" =
       Some (VStr (if truthy v then "updateSoundedSpeed" else "prevent")) /\
     local' =
       spread (delete "updateSoundedSpeedWheneverItChangesOnWebsite" local)
         {[ "onPlaybackRateChangeFromOtherScripts" :=
              if truthy v then VStr "updateSoundedSpeed" else VStr "prevent" ]}) /\
  (forall k, k <> "updateSoundedSpeedWheneverItChangesOnWebsite" ->
             k <> "onPlaybackRateChangeFromOtherScripts" -> local' !! k = local !! k) /\
  migrateFrom1_25_1 local' = local'.
Proof.
  intros local'. subst local'. repeat split.
  - rewrite migrateFrom1_25_1_lookup.
    destruct (local !! "updateSoundedSpeedWheneverItChangesOnWebsite") eqn:E;
      [now case_decide | first [exact E | reflexivity]].
  - rewrite migrateFrom1_25_1_lookup, H. repeat case_decide; try done.
    now destruct (truthy v).
  - apply map_eq. intros k. rewrite migrateFrom1_25_1_lookup, H, spread_lookup.
    repeat case_decide; subst; simplify_map_eq; reflexivity.
  - intros k H1 H2. rewrite migrateFrom1_25_1_lookup.
    destruct (local !! "updateSoundedSpeedWheneverItChangesOnWebsite"); [|reflexivity].
    now repeat case_decide.
  - unfold migrateFrom1_25_1 at 1.
    replace (migrateFrom1_25_1 local !! "updateSoundedSpeedWheneverItChangesOnWebsite")
      with (@None jsval); [reflexivity|].
    symmetry. rewrite migrateFrom1_25_1_lookup.
    destruct (local !! "updateSoundedSpeedWheneverItChangesOnWebsite") eqn:E;
      [now case_decide | first [exact E | reflexivity]].
Qed.

(** X25.  After [migrateFrom1_6_0] every key of the sync storage is in the
    local storage with the value it has in the sync storage, every other
    key of the local storage keeps its value, and a second run changes
    nothing. *)
Theorem migrateFrom1_6_0_spec (sync local : Storage) :
  let local' := migrateFrom1_6_0 sync local in
  (forall k v, sync !! k = Some v -> local' !! k = Some v) /\
  (forall k, sync !! k = None -> local' !! k = local !! k) /\
  migrateFrom1_6_0 sync local' = local'.
Proof.
  intros local'. subst local'. unfold migrateFrom1_6_0. cbv zeta. repeat split.
  - intros k v. apply spread_lookup_present.
  - intros k. apply spread_lookup_absent.
  - apply map_eq. intros k. rewrite !spread_lookup. now destruct (sync !! k).
Qed.

End MigrationFacts.

(** ** Listening to storage changes *)

Section StorageListenerFacts.
Import StorageListener.

Lemma callWrapper_forwarded (env : Env) (w : Wrapper) (changes : Changes) (areaName : string)
    (st : State) :
  callWrapper env w changes areaName st =
    mkState (registry st) (attached st) (fresh st)
      (called st ++ match forwarded env changes areaName with
                    | Some ch => [(wrapped w, ch)]
                    | None => []
                    end).
Proof.
  unfold callWrapper, forwarded.
  destruct (negb _); [destruct st; simpl; now rewrite app_nil_r|].
  destruct (mayHaveEqualOldAndNewValue env); [|reflexivity].
  destruct (Nat.eqb _ 0); [destruct st; simpl; now rewrite app_nil_r | reflexivity].
Qed.

Lemma fold_callWrapper (env : Env) (changes : Changes) (areaName : string)
    (ws : list Wrapper) (st : State) :
  fold_left (fun st w => callWrapper env w changes areaName st) ws st =
    mkState (registry st) (attached st) (fresh st)
      (called st ++ match forwarded env changes areaName with
                    | Some ch => map (fun w => (wrapped w, ch)) ws
                    | None => []
                    end).
Proof.
  revert st. induction ws as [| w ws IH]; intros st; simpl.
  - destruct st; simpl. destruct (forwarded _ _ _); now rewrite app_nil_r.
  - rewrite IH, callWrapper_forwarded. simpl.
    destruct (forwarded _ _ _); simpl; now rewrite <- app_assoc.
Qed.

Lemma adds_attached (ls : list ListenerId) (st : State) :
  map wrapped (attached (adds ls st)) = map wrapped (attached st) ++ ls /\
  called (adds ls st) = called st.
Proof.
  revert st. induction ls as [| l ls IH]; intros st; simpl.
  - now rewrite app_nil_r.
  - destruct (IH (addOnStorageChangedListener l st)) as [H1 H2].
    unfold adds in *. rewrite H1, H2. simpl.
    rewrite map_app. simpl. now rewrite <- app_assoc.
Qed.

(** X26.  When the browser fires a storage change, each listener added
    with [addOnStorageChangedListener] is called once for each time it was
    added, in the order of the additions, with the changes of the event --
    but only for the main storage area; and, when the build flag is set,
    with the changes filtered by [filterOutUnchangedValues], and not at all
    when nothing is left of them. *)
Theorem fire_after_adds (env : Env) (listeners : list ListenerId)
    (changes : Changes) (areaName : string) :
  called (fire env changes areaName (adds listeners empty)) =
    if negb (String.eqb areaName (mainStorageAreaName env)) then []
    else if mayHaveEqualOldAndNewValue env then
      if Nat.eqb (size (filterOutUnchangedValues env changes)) 0 then []
      else map (fun l => (l, filterOutUnchangedValues env changes)) listeners
    else map (fun l => (l, changes)) listeners.
Proof.
  unfold fire. rewrite fold_callWrapper. cbn [called].
  destruct (adds_attached listeners empty) as [H1 H2]. rewrite H2. cbn [called empty app].
  assert (E : forall ch : Changes,
               map (fun w => (wrapped w, ch)) (attached (adds listeners empty))
               = map (fun l => (l, ch)) listeners).
  { intros ch. rewrite <- (map_map wrapped (fun l : ListenerId => (l, ch))).
    now rewrite H1. }
  unfold forwarded. destruct (negb _); [reflexivity|].
  destruct (mayHaveEqualOldAndNewValue env); [|apply E].
  destruct (Nat.eqb _ 0); [reflexivity | apply E].
Qed.

Lemma filter_older (k : nat) (ws : list Wrapper) :
  Forall (fun w => (wrapperId w < k)%nat) ws ->
  List.filter (fun w => negb (Nat.eqb (wrapperId w) k)) ws = ws.
Proof.
  induction 1 as [| w ws Hw Hws IH]; simpl; [reflexivity|].
  replace (Nat.eqb (wrapperId w) k) with false
    by (symmetry; apply Nat.eqb_neq; lia).
  simpl. now rewrite IH.
Qed.

(** X27.  Removing a listener right after adding it detaches the function
    that was attached for it: the functions attached to the browser's event
    are those that were attached before, and no listener was called. *)
Theorem add_remove_listener (listener : ListenerId) (st : State) :
  wellFormed st ->
  let st' := removeOnStorageChangedListener listener
               (addOnStorageChangedListener listener st) in
  attached st' = attached st /\ called st' = called st.
Proof.
  intros Hwf st'. subst st'.
  unfold removeOnStorageChangedListener, addOnStorageChangedListener, createWrapperListener.
  cbn [registry attached fresh called]. rewrite lookup_insert_eq.
  cbn [attached called wrapperId]. split; [|reflexivity].
  rewrite List.filter_app. cbn [List.filter wrapperId].
  rewrite Nat.eqb_refl. cbn [negb]. rewrite app_nil_r.
  now apply filter_older.
Qed.

Lemma add_remove_listener_witness :
  attached (removeOnStorageChangedListener 7%nat
              (addOnStorageChangedListener 7%nat (adds [3%nat; 5%nat] empty)))
  = attached (adds [3%nat; 5%nat] empty).
Proof.
  apply (add_remove_listener 7%nat (adds [3%nat; 5%nat] empty)).
  repeat constructor.
Defined.

(** X28.  A listener added twice and removed twice stays attached once:
    the second addition replaces the registered function, both removals
    detach that second function, and the first one keeps being called. *)
Theorem add_twice_remove_twice (env : Env) (listener : ListenerId) (st : State)
    (changes : Changes) :
  wellFormed st ->
  let st' :=
    removeOnStorageChangedListener listener
      (removeOnStorageChangedListener listener
         (addOnStorageChangedListener listener
            (addOnStorageChangedListener listener st))) in
  attached st' = attached st ++ [mkWrapper (fresh st) listener] /\
  (forwarded env changes (mainStorageAreaName env) = Some changes ->
   In (listener, changes)
      (called (fire env changes (mainStorageAreaName env)
                 (mkState (registry st') (attached st') (fresh st') [])))).
Proof.
  intros Hwf st'.
  assert (E : attached st' = attached st ++ [mkWrapper (fresh st) listener]).
  { subst st'.
    unfold removeOnStorageChangedListener, addOnStorageChangedListener,
      createWrapperListener.
    cbn [registry attached fresh called]. rewrite lookup_insert_eq.
    cbn [registry attached fresh called]. rewrite lookup_insert_eq.
    cbn [attached wrapperId].
    rewrite List.filter_app. cbn [List.filter wrapperId].
    rewrite Nat.eqb_refl. cbn [negb]. rewrite app_nil_r.
    rewrite List.filter_app. cbn [List.filter wrapperId].
    replace (Nat.eqb (fresh st) (S (fresh st))) with false
      by (symmetry; apply Nat.eqb_neq; lia).
    cbn [negb].
    rewrite (filter_older (S (fresh st)) (attached st)).
    2:{ eapply Forall_impl; [exact Hwf|]. simpl. intros w Hw. lia. }
    rewrite List.filter_app. cbn [List.filter wrapperId].
    replace (Nat.eqb (fresh st) (S (fresh st))) with false
      by (symmetry; apply Nat.eqb_neq; lia).
    cbn [negb].
    rewrite (filter_older (S (fresh st)) (attached st)).
    2:{ eapply Forall_impl; [exact Hwf|]. simpl. intros w Hw. lia. }
    reflexivity. }
  split; [exact E|].
  intros Hf. unfold fire. rewrite fold_callWrapper. cbn [called attached app].
  rewrite Hf, E, map_app. apply in_or_app. right. now left.
Qed.

Lemma add_twice_remove_twice_witness :
  attached
    (removeOnStorageChangedListener 7%nat
       (removeOnStorageChangedListener 7%nat
          (addOnStorageChangedListener 7%nat (addOnStorageChangedListener 7%nat empty))))
  = [mkWrapper 0%nat 7%nat].
Proof.
  apply (add_twice_remove_twice (mkEnv "local" false id) 7%nat empty ∅).
  constructor.
Defined.

End StorageListenerFacts.
